(** * Parameter-shift gradients of tequila objectives

    A shallow embedding of [src/tequila/circuit/gradient.py]:

    - [tgrad], the table of partial derivatives of the binary operators;
    - [__weight_chain] (here [weight_chain]), the chain rule over the
      expression graph of a gate parameter;
    - [__grad_expectationvalue] (here [grad_expectationvalue]), the
      parameter-shift rule over the gates of a circuit;
    - [__grad_objective] (here [grad_objective]) and the dispatcher [grad].

    Python exceptions are values of [exn] and every function that can raise
    returns a [result].  Python floats are kept abstract (class [PyFloat]):
    the module never inspects a float, it only combines them, so the
    statements are proved for every arithmetic, binary64 with its rounding,
    overflow and underflow included.  A power of floats is a float, a
    complex number or an exception, as in Python 3.  [RealFloat] is an
    arithmetic without rounding, in which the functions are run on a few
    inputs; no general statement is about it. *)

From Stdlib Require Import Reals Lra Lia ZArith String List Bool.
From stdpp Require Import base list.
Import ListNotations.

Set Warnings "-register-all".

Open Scope string_scope.
Open Scope list_scope.

(** ** Exceptions and results *)

(** What [float ** float] can raise. *)
Inductive pow_error :=
| PowZeroDivision   (* 0.0 ** negative : ZeroDivisionError *)
| PowOverflow.      (* OverflowError *)

(** What [float ** float] gives: a float; a complex number, for a negative
    base with an exponent that is no integer (Python 3 raises nothing
    there); or an exception. *)
Inductive pow_outcome (F C : Type) :=
| PowFloat (x : F)
| PowComplex (z : C)
| PowRaise (e : pow_error).

Arguments PowFloat {F C} x.
Arguments PowComplex {F C} z.
Arguments PowRaise {F C} e.

Inductive exn :=
| TequilaException (msg : string)
| NotImplementedError (msg : string)
| UnboundLocalError (name : string)
| TypeError (msg : string)
| AttributeError (msg : string)
| ZeroDivisionError
| PowError (e : pow_error)
| CollaboratorError (callee : string)
| RecursionError.

Inductive result (A : Type) :=
| OK (a : A)
| Raise (e : exn).

Arguments OK {A} a.
Arguments Raise {A} e.

Definition bind {A B} (m : result A) (k : A -> result B) : result B :=
  match m with
  | OK a => k a
  | Raise e => Raise e
  end.

Notation "'let*' x ':=' m 'in' k" := (bind m (fun x => k))
  (at level 10, x name, m at level 100, k at level 200).

(** [[g(x) for x in xs]]: left to right, the first exception wins. *)
Fixpoint mapM {A B} (g : A -> result B) (xs : list A) : result (list B) :=
  match xs with
  | [] => OK []
  | x :: xs' =>
      let* y := g x in
      let* ys := mapM g xs' in
      OK (y :: ys)
  end.

(** The library's exceptions, under the names the specification gives them.
    All of them but [NotImplemented] are [TequilaException]s and differ by
    the message of their [raise] statement. *)
Definition UnsupportedOperation : exn :=
  TequilaException
    "Sorry, only pre-built tequila functions supported for tgrad at the moment.".

Definition InvalidOperand (type_of_par : string) : exn :=
  TequilaException
    ("Object of type " ++ type_of_par ++
     " passed to weight_chain; only strings, Variables and Transforms are allowed.").

Definition UnsupportedGateKind : exn :=
  TequilaException
    "Automatic differentiation is implemented only for Rotational Gates".

Definition NotImplemented : exn := NotImplementedError "broken on this branch".

Definition UnsupportedType : exn :=
  TequilaException
    "Gradient not implemented for other types than ExpectationValue and Objective.".

(** The exceptions of the table, of the evaluation of the arguments and of
    float arithmetic. *)
Definition table_or_arithmetic (e : exn) : Prop :=
  e = UnsupportedOperation
  \/ e = CollaboratorError "complex"
  \/ (exists msg, e = TypeError msg)
  \/ e = ZeroDivisionError
  \/ (exists pe, e = PowError pe).

(** ** Python floats *)

Class PyFloat := {
  float : Type;
  complex : Type;                       (* Python's complex numbers *)
  of_int : Z -> float;                  (* float(n); the literal 1.0 is [of_int 1] *)
  half : float;                         (* the literal 0.5 *)
  np_pi : float;                        (* np.pi *)
  fneg : float -> float;                (* -x *)
  fsub : float -> float -> float;       (* x - y *)
  fmul : float -> float -> float;       (* x * y *)
  fdiv : float -> float -> float;       (* x / y for y <> 0 *)
  is_zero : float -> bool;              (* y == 0 *)
  float_pow : float -> float -> pow_outcome float complex;   (* x ** y *)
  fmul_fc : float -> complex -> complex;          (* x * z, z a complex *)
  cmul_cf : complex -> float -> complex;          (* z * x, z a complex *)
  fdiv_fc : float -> complex -> option complex;   (* x / z, None for z == 0 *)
  np_log : float -> float;              (* np.log: warns, never raises *)
  np_sum : list float -> float;         (* np.sum of a float array *)
  (* the sign of a product: (-a) * b and -(a * b) are the same float *)
  fmul_fneg_l : forall a b, fmul (fneg a) b = fneg (fmul a b);
  (* an array of zeros sums to 0.0 *)
  np_sum_zeros : forall n, np_sum (repeat (of_int 0) n) = of_int 0
}.

(** ** Operators of the expression graph *)

Module operator.
Inductive t := add | sub | mul | truediv | pow | other (name : string).
End operator.

(** The function of a Transform: a callable with an [op] attribute. *)
Record pyfunc := { fname : string; op : operator.t }.

Section Gradient.

Context {FL : PyFloat}.

(** [x / y] on floats. *)
Definition py_truediv (x y : float) : result float :=
  if is_zero y then Raise ZeroDivisionError else OK (fdiv x y).

(** A float or a complex number: what an arithmetic expression over
    floats evaluates to. *)
Inductive pynum :=
| PFloat (x : float)
| PComplex (z : complex).

(** [x ** y] on floats. *)
Definition py_pow (x y : float) : result pynum :=
  match float_pow x y with
  | PowFloat z => OK (PFloat z)
  | PowComplex z => OK (PComplex z)
  | PowRaise e => Raise (PowError e)
  end.

(** [a * p], [p * b] and [a / p] for floats [a], [b] and the value [p] of
    a power. *)
Definition mul_float_num (a : float) (p : pynum) : pynum :=
  match p with
  | PFloat x => PFloat (fmul a x)
  | PComplex z => PComplex (fmul_fc a z)
  end.

Definition mul_num_float (p : pynum) (b : float) : pynum :=
  match p with
  | PFloat x => PFloat (fmul x b)
  | PComplex z => PComplex (cmul_cf z b)
  end.

Definition div_float_num (a : float) (p : pynum) : result pynum :=
  match p with
  | PFloat x => let* q := py_truediv a x in OK (PFloat q)
  | PComplex z =>
      match fdiv_fc a z with
      | Some c => OK (PComplex c)
      | None => Raise ZeroDivisionError
      end
  end.

(** [expan[i] = v]: numpy converts the value to a float64 and refuses a
    complex number. *)
Definition store (v : pynum) : result float :=
  match v with
  | PFloat x => OK x
  | PComplex _ => Raise (TypeError "can't convert complex to float")
  end.

(** A Python number: the arguments of the functions [tgrad] returns go
    through [float(...)] before they are used. *)
Inductive number :=
| NInt (z : Z)
| NFloat (x : float).

Definition float_of (n : number) : float :=
  match n with
  | NInt z => of_int z
  | NFloat x => x
  end.

(** [np.zeros(n)] *)
Definition np_zeros (n : nat) : list float := repeat (of_int 0) n.

(** ** Expression graph *)

(** The Python values that reach [__weight_chain], as [par] or as
    [variable]. *)
Inductive pyobj :=
| PVariable (name : string)                     (* type(x) is Variable *)
| PTransform (f : pyfunc) (args : list pyobj)   (* Transform, or anything with args and f *)
| PStr (s : string)
| PNumber (n : number)
| PNone.

(** [str(type(x))] *)
Definition type_str (x : pyobj) : string :=
  match x with
  | PVariable _ => "<class 'tequila.circuit.variable.Variable'>"
  | PTransform _ _ => "<class 'tequila.circuit.variable.Transform'>"
  | PStr _ => "<class 'str'>"
  | PNumber (NInt _) => "<class 'int'>"
  | PNumber (NFloat _) => "<class 'float'>"
  | PNone => "<class 'NoneType'>"
  end.

(** Modelled from the spec: [has_variable] and [Transform.has_var] of
    [tequila.circuit.variable], which are not in this file.  The
    specification says a node exposes whether it contains a given variable
    anywhere in its subtree; a constant contains none. *)
Fixpoint has_variable (obj : pyobj) (var : string) : bool :=
  match obj with
  | PVariable name => String.eqb name var
  | PTransform _ args => existsb (fun a => has_variable a var) args
  | _ => false
  end.

Definition has_var (t : pyobj) (var : string) : bool := has_variable t var.

(** ** Gates, circuits, expectation values, objectives *)

(** Modelled from the spec: the gate classes of
    [tequila.circuit._gates_impl], which are not in this file.  A gate has
    the attributes the gradient reads or writes: the method
    [is_parametrized()], the flag [frozen], [parameter], and the
    kind-specific attributes [angle] (rotations) and [power] (power gates),
    [None] when the gate has no such attribute. *)
Record gate := {
  gate_name : string;
  is_parametrized : bool;
  frozen : bool;
  parameter : pyobj;
  angle : option pyobj;
  power : option pyobj
}.

(** Modelled from the spec: [is_frozen()] tells whether the gate is
    excluded from differentiation, that is, its flag [frozen]. *)
Definition is_frozen (g : gate) : bool := frozen g.

(** [copy.deepcopy(g)]: values are immutable here, the copy is a new value
    equal to [g] that shares nothing with it. *)
Definition deepcopy (g : gate) : gate := g.

(** [g.frozen = b] and [g.angle = a] on a copy. *)
Definition set_frozen (g : gate) (b : bool) : gate :=
  {| gate_name := gate_name g; is_parametrized := is_parametrized g;
     frozen := b; parameter := parameter g;
     angle := angle g; power := power g |}.

Definition set_angle (g : gate) (a : pyobj) : gate :=
  {| gate_name := gate_name g; is_parametrized := is_parametrized g;
     frozen := frozen g; parameter := parameter g;
     angle := Some a; power := power g |}.

(** Modelled from the spec: [tequila.circuit.QCircuit], an ordered
    sequence of gates. *)
Record QCircuit := { gates : list gate }.

(** Modelled from the spec: [QCircuit.replace_gate], which is not in this
    file: a new circuit with the gate at [position] replaced by the given
    gate list, the original unmodified. *)
Definition replace_gate (unitary : QCircuit) (position : nat) (gs : list gate)
  : QCircuit :=
  {| gates := take position (gates unitary) ++ gs
              ++ drop (S position) (gates unitary) |}.

(** The observable, opaque to the gradient. *)
Inductive hamiltonian := Hamiltonian (label : string).

(** Modelled from the spec: [tequila.objective.ExpectationValue], a
    circuit [U] with an observable [H]. *)
Record ExpectationValue := { U : QCircuit; H : hamiltonian }.

(** Transformations of an Objective: the one an Objective gets when none is
    given, a callable of the user, or [jax.jit(jax.grad(t, argnums=i))]. *)
Inductive transformation :=
| default_transformation
| callable (name : string)
| jax_jit_grad (t : transformation) (argnums : nat).

(** Modelled from the spec: [tequila.objective.Objective], an ordered
    sequence of expectation values with a transformation. *)
Record Objective := {
  expectationvalues : list ExpectationValue;
  transformation_of : transformation
}.

(** What the gradient builds.  The operators [*] and [+] on Objectives
    belong to [tequila.objective]; the term records which operators were
    applied to which operands, in the order the module applies them.
    [pyvalue] is what [grad] returns: [None], an Objective, or a list. *)
Inductive objective :=
| Leaf (obj : Objective)
| RMul (w : float) (o : objective)          (* w * O, w a float *)
| Add (a b : objective)                     (* a + b *)
| Mul (a : objective) (b : pyvalue)         (* a * b *)
with pyvalue :=
| VNone
| VObjective (o : objective)
| VList (l : list pyvalue).

Definition value_of (dO : option objective) : pyvalue :=
  match dO with
  | None => VNone
  | Some o => VObjective o
  end.

(** Any other value given to [grad]: the name of its type, and what its
    [extract_variables()] returns if it has that method. *)
Record other := {
  other_type : string;
  other_variables : option (list string)
}.

Inductive grad_input :=
| OfExpectationValue (E : ExpectationValue)
| OfObjective (obj : Objective)
| OfOther (o : other).

(** The argument [variable] of [grad]: [None], a name, or a collection of
    names. *)
Inductive variable_arg :=
| NoVariable
| Name (v : string)
| Names (vs : list string).

(** A compilation pass maps an object to an object of the same kind. *)
Record compiler := {
  on_expectationvalue : ExpectationValue -> ExpectationValue;
  on_objective : Objective -> Objective;
  on_other : other -> other
}.

Definition run (c : compiler) (obj : grad_input) : grad_input :=
  match obj with
  | OfExpectationValue E => OfExpectationValue (on_expectationvalue c E)
  | OfObjective o => OfObjective (on_objective c o)
  | OfOther o => OfOther (on_other c o)
  end.

(** ** Collaborators

    What the module calls in the rest of tequila, taken as parameters:
    - [real_value arg] is [complex(arg).real], [None] when the conversion
      raises;
    - [expr_add a c] and [expr_sub a c] are [a + c] and [a - c] for an
      angle [a] and a float [c];
    - the two compilation passes;
    - [extract_variables()] of an ExpectationValue and of an Objective. *)
Class Collaborators := {
  real_value : pyobj -> option float;
  expr_add : pyobj -> float -> pyobj;
  expr_sub : pyobj -> float -> pyobj;
  compile_trotterized_gate : compiler;
  compile_controlled_rotation : compiler;
  extract_variables_E : ExpectationValue -> list string;
  extract_variables_O : Objective -> list string
}.

Context {TQ : Collaborators}.

Definition complex_real (arg : pyobj) : result float :=
  match real_value arg with
  | Some x => OK x
  | None => Raise (CollaboratorError "complex")
  end.

Definition extract_variables (obj : grad_input) : result (list string) :=
  match obj with
  | OfExpectationValue E => OK (extract_variables_E E)
  | OfObjective o => OK (extract_variables_O o)
  | OfOther o =>
      match other_variables o with
      | Some vs => OK vs
      | None => Raise (AttributeError "extract_variables")
      end
  end.

(** ** [tgrad] *)

(** The functions [tgrad] returns: [lambda x, y: ...]. *)
Definition lambda := number -> number -> result pynum.

(** [tgrad(f, argnum)].  [assert callable(f)] holds for every [pyfunc].
    Falling off the end of the function returns [None]. *)
Definition tgrad (f : pyfunc) (argnum : Z) : result (option lambda) :=
  if (argnum =? 0)%Z then
    match op f with
    | operator.add => OK (Some (fun x y => OK (PFloat (of_int 1))))
    | operator.mul => OK (Some (fun x y => OK (PFloat (float_of y))))
    | operator.sub => OK (Some (fun x y => OK (PFloat (of_int 1))))
    | operator.truediv =>
        OK (Some (fun x y =>
                    let* q := py_truediv (of_int 1) (float_of y) in
                    OK (PFloat q)))
    | operator.pow =>
        OK (Some (fun x y =>
                    let* p := py_pow (float_of x) (fsub (float_of y) (of_int 1)) in
                    OK (mul_float_num (float_of y) p)))
    | operator.other _ => Raise UnsupportedOperation
    end
  else if (argnum =? 1)%Z then
    match op f with
    | operator.add => OK (Some (fun x y => OK (PFloat (of_int 1))))
    | operator.mul => OK (Some (fun x y => OK (PFloat (float_of x))))
    | operator.sub => OK (Some (fun x y => OK (PFloat (fneg (of_int 1)))))
    | operator.truediv =>
        OK (Some (fun x y =>
                    let* d := py_pow (float_of y) (of_int 2) in
                    div_float_num (fneg (float_of x)) d))
    | operator.pow =>
        OK (Some (fun x y =>
                    let* p := py_pow (float_of x) (float_of y) in
                    OK (mul_num_float p (np_log (float_of x)))))
    | operator.other _ => Raise UnsupportedOperation
    end
  else OK None.

(** Calling the value [d] that [tgrad] returned on the unpacked list
    [floats]. *)
Definition call (d : option lambda) (floats : list float) : result pynum :=
  match d with
  | None => Raise (TypeError "'NoneType' object is not callable")
  | Some fn =>
      match floats with
      | [x; y] => fn (NFloat x) (NFloat y)
      | _ => Raise (TypeError "<lambda>() takes 2 positional arguments")
      end
  end.

(** ** [__weight_chain] *)

(** Reading a local name: [UnboundLocalError] when it was never assigned. *)
Definition local (name : string) (v : option string) : result string :=
  match v with
  | Some s => OK s
  | None => Raise (UnboundLocalError name)
  end.

(** The first two [if]s of [__weight_chain]: [var] stays unassigned when
    [variable] is neither a Variable nor a str. *)
Definition assign_var (variable : pyobj) : option string :=
  let var := None in
  let var := match variable with PVariable name => Some name | _ => var end in
  let var := match variable with PStr s => Some s | _ => var end in
  var.

Section ChainLoop.

(** [__weight_chain(., var)] on the arguments of the Transform. *)
Variable rec : pyobj -> result float.
Variable f : pyfunc.
Variable args : list pyobj.
Variable var : string.

(** [for i in range(la)], from index [i] on; [rest] is [args[i:]]. *)
Fixpoint chain_loop (rest : list pyobj) (i : nat) (expan : list float)
  : result (list float) :=
  match rest with
  | [] => OK expan
  | a :: rest' =>
      if has_variable a var then
        let* floats := mapM complex_real args in
        let* d := tgrad f (Z.of_nat i) in
        let* p := call d floats in
        let* w := rec a in
        let* t := store (mul_num_float p w) in
        chain_loop rest' (S i) (<[i := t]> expan)
      else
        chain_loop rest' (S i) (<[i := of_int 0]> expan)
  end.

End ChainLoop.

Fixpoint weight_chain (par variable : pyobj) {struct par} : result float :=
  let var := assign_var variable in
  match par with
  | PVariable name =>
      let* var := local "var" var in
      if String.eqb name var then OK (of_int 1) else OK (of_int 0)
  | PTransform f args =>
      let la := length args in
      let expan := np_zeros la in
      let* var := local "var" var in
      if has_var par var then
        let* expan :=
          chain_loop (fun a => weight_chain a (PStr var)) f args var args 0 expan in
        OK (np_sum expan)
      else OK (np_sum expan)
  | _ => Raise (InvalidOperand (type_str par))
  end.

(** ** [__grad_expectationvalue] *)

(** The body of the [hasattr(g, 'angle')] branch: the increment [dOinc] for
    the gate [g] at position [i], whose angle is [a]. *)
Definition shift_rule (unitary : QCircuit) (hamiltonian : hamiltonian)
  (variable : string) (i : nat) (g : gate) (a : pyobj) : result objective :=
  let pi := np_pi in
  let neo_a := deepcopy g in
  let neo_a := set_frozen neo_a true in
  let neo_a := set_angle neo_a (expr_add a (fdiv pi (of_int 2))) in
  let U1 := replace_gate unitary i [neo_a] in
  let* c1 := weight_chain (parameter g) (PStr variable) in
  let w1 := fmul half c1 in
  let neo_b := deepcopy g in
  let neo_b := set_frozen neo_b true in
  let neo_b := set_angle neo_b (expr_sub a (fdiv pi (of_int 2))) in
  let U2 := replace_gate unitary i [neo_b] in
  let* c2 := weight_chain (parameter g) (PStr variable) in
  let w2 := fmul (fneg half) c2 in
  let Oplus := {| U := U1; H := hamiltonian |} in
  let Ominus := {| U := U2; H := hamiltonian |} in
  OK (Add (RMul w1 (Leaf {| expectationvalues := [Oplus];
                            transformation_of := default_transformation |}))
          (RMul w2 (Leaf {| expectationvalues := [Ominus];
                            transformation_of := default_transformation |}))).

(** [dO = dOinc] when [dO is None], [dO + dOinc] otherwise. *)
Definition accumulate (dO : option objective) (dOinc : objective)
  : option objective :=
  match dO with
  | None => Some dOinc
  | Some d => Some (Add d dOinc)
  end.

(** [for i, g in enumerate(unitary.gates)], from position [i] on. *)
Fixpoint gate_loop (unitary : QCircuit) (hamiltonian : hamiltonian)
  (variable : string) (gs : list gate) (i : nat) (dO : option objective)
  : result (option objective) :=
  match gs with
  | [] => OK dO
  | g :: rest =>
      if is_parametrized g && negb (is_frozen g) then
        match angle g with
        | Some a =>
            let* dOinc := shift_rule unitary hamiltonian variable i g a in
            gate_loop unitary hamiltonian variable rest (S i)
                      (accumulate dO dOinc)
        | None =>
            match power g with
            | Some _ => Raise NotImplemented
            | None => Raise UnsupportedGateKind
            end
        end
      else gate_loop unitary hamiltonian variable rest (S i) dO
  end.

Definition grad_expectationvalue (E : ExpectationValue) (variable : string)
  : result pyvalue :=
  let hamiltonian := H E in
  let unitary := U E in
  let* dO := gate_loop unitary hamiltonian variable (gates unitary) 0 None in
  OK (value_of dO).

(** ** [__grad_objective] and [grad] *)

(** [grad] and [__grad_objective] call each other; the functions below take
    the [grad] they call as the parameter [self]. *)
Definition grad_type := grad_input -> variable_arg -> bool -> result pyvalue.

(** [for i, E in enumerate(expectationvalues)], from position [i] on. *)
Fixpoint objective_loop (self : grad_type)
  (expectationvalues : list ExpectationValue) (transformation : transformation)
  (variable : string) (es : list ExpectationValue) (i : nat)
  (dO : option objective) : result (option objective) :=
  match es with
  | [] => OK dO
  | E :: rest =>
      if negb (existsb (String.eqb variable) (extract_variables_E E)) then
        objective_loop self expectationvalues transformation variable
                       rest (S i) dO
      else
        let df := jax_jit_grad transformation i in
        let outer := Leaf {| expectationvalues := expectationvalues;
                             transformation_of := df |} in
        let* inner := self (OfExpectationValue E) (Name variable) false in
        objective_loop self expectationvalues transformation variable
                       rest (S i) (accumulate dO (Mul outer inner))
  end.

Definition grad_objective (self : grad_type) (objective : Objective)
  (variable : string) : result pyvalue :=
  let expectationvalues := expectationvalues objective in
  let transformation := transformation_of objective in
  let* dO := objective_loop self expectationvalues transformation variable
                            expectationvalues 0 None in
  OK (value_of dO).

(** The body of [grad]. *)
Definition grad_body (self : grad_type) (obj : grad_input)
  (variable : variable_arg) (no_compile : bool) : result pyvalue :=
  let compiled :=
    if negb no_compile then
      let compiled := run compile_trotterized_gate obj in
      run compile_controlled_rotation compiled
    else obj in
  let* variable :=
    match variable with
    | NoVariable => let* vs := extract_variables compiled in OK (Names vs)
    | _ => OK variable
    end in
  match variable with
  | Name variable =>
      match obj with
      | OfExpectationValue _ =>
          match compiled with
          | OfExpectationValue E => grad_expectationvalue E variable
          | _ => Raise (AttributeError "H")
          end
      | OfObjective _ =>
          match compiled with
          | OfObjective objective => grad_objective self objective variable
          | _ => Raise (AttributeError "expectationvalues")
          end
      | OfOther _ => Raise UnsupportedType
      end
  | Names vs =>
      let* l := mapM (fun v => self compiled (Name v) true) vs in
      OK (VList l)
  | NoVariable => Raise (TypeError "'NoneType' object is not iterable")
  end.

(** [grad] with a bound on the depth of its recursion. *)
Fixpoint grad_fuel (fuel : nat) : grad_type :=
  match fuel with
  | 0 => fun _ _ _ => Raise RecursionError
  | S fuel' => grad_body (grad_fuel fuel')
  end.

(** The calls nest three deep at most: [grad] over a collection of names,
    [grad] of an Objective for one name, [grad] of an ExpectationValue
    (see [grad_fuel_enough]). *)
Definition grad : grad_type := grad_fuel 3.

(** ** The specification's reading of the algorithms

    Definitions that follow the words of the specification, to be compared
    with the functions above. *)

(** [tgrad(f, argnum)(x, y)] *)
Definition partial (f : pyfunc) (argnum : Z) (x y : number) : result pynum :=
  let* d := tgrad f argnum in
  match d with
  | Some fn => fn x y
  | None => Raise (TypeError "'NoneType' object is not callable")
  end.

(** [enumerate(l)], counting from [i]. *)
Fixpoint enumerate_from {A} (i : nat) (l : list A) : list (nat * A) :=
  match l with
  | [] => []
  | a :: l' => (i, a) :: enumerate_from (S i) l'
  end.

Definition enumerate {A} (l : list A) : list (nat * A) := enumerate_from 0 l.

(** The contribution of argument [i] of a Transform to the total
    derivative: the table entry of [f] at position [i], evaluated at the
    current values of all the arguments, times the derivative of the
    argument; zero for an argument that does not contain the variable. *)
Definition chain_term (f : pyfunc) (args : list pyobj) (var : string)
  (ia : nat * pyobj) : result float :=
  let (i, a) := ia in
  if has_variable a var then
    let* floats := mapM complex_real args in
    let* d := tgrad f (Z.of_nat i) in
    let* p := call d floats in
    let* w := weight_chain a (PStr var) in
    store (mul_num_float p w)
  else OK (of_int 0).

(** The multivariate chain rule: the sum of the contributions of all the
    arguments. *)
Definition chain_rule_sum (f : pyfunc) (args : list pyobj) (var : string)
  : result float :=
  let* terms := mapM (chain_term f args var) (enumerate args) in
  OK (np_sum terms).

(** [type(x) is Variable], [type(x) is str], and the nodes of the
    expression graph. *)
Definition type_is_Variable (x : pyobj) : bool :=
  match x with PVariable _ => true | _ => false end.

Definition type_is_str (x : pyobj) : bool :=
  match x with PStr _ => true | _ => false end.

Definition is_node (x : pyobj) : bool :=
  match x with PVariable _ | PTransform _ _ => true | _ => false end.

(** A gate the loop of [__grad_expectationvalue] differentiates. *)
Definition differentiable (g : gate) : bool :=
  is_parametrized g && negb (is_frozen g).

(** The two shifted copies of a gate with angle [a]. *)
Definition shifted_plus (g : gate) (a : pyobj) : gate :=
  {| gate_name := gate_name g; is_parametrized := is_parametrized g;
     frozen := true; parameter := parameter g;
     angle := Some (expr_add a (fdiv np_pi (of_int 2))); power := power g |}.

Definition shifted_minus (g : gate) (a : pyobj) : gate :=
  {| gate_name := gate_name g; is_parametrized := is_parametrized g;
     frozen := true; parameter := parameter g;
     angle := Some (expr_sub a (fdiv np_pi (of_int 2))); power := power g |}.

(** [Objective([ExpectationValue(U, H)])] *)
Definition single (unitary : QCircuit) (hamiltonian : hamiltonian) : objective :=
  Leaf {| expectationvalues := [ {| U := unitary; H := hamiltonian |} ];
          transformation_of := default_transformation |}.

(** The parameter-shift contribution of gate [g] at position [i] for the
    chain-rule coefficient [c]: weight [w = 0.5 * c] on the circuit shifted
    by +pi/2 and [-w] on the circuit shifted by -pi/2. *)
Definition contribution (unitary : QCircuit) (hamiltonian : hamiltonian)
  (i : nat) (g : gate) (a : pyobj) (c : float) : objective :=
  let w := fmul half c in
  Add (RMul w (single (replace_gate unitary i [shifted_plus g a]) hamiltonian))
      (RMul (fneg w)
            (single (replace_gate unitary i [shifted_minus g a]) hamiltonian)).

(** [a_1 + ... + a_n], associated to the left; [None] for no term. *)
Definition sum_objectives (terms : list objective) : pyvalue :=
  match terms with
  | [] => VNone
  | t :: ts => VObjective (fold_left Add ts t)
  end.

(** The expectation values of an Objective that depend on [variable],
    with their positions. *)
Definition qualifying (variable : string) (es : list ExpectationValue)
  : list (nat * ExpectationValue) :=
  List.filter
    (fun iE => existsb (String.eqb variable) (extract_variables_E (snd iE)))
    (enumerate es).

(** [outer_i * inner_i]: the Objective of the partial derivative of the
    transformation in its argument [i], over the same expectation values,
    times the gradient of [E_i]. *)
Definition objective_term (self : grad_type) (obj : Objective)
  (variable : string) (iE : nat * ExpectationValue) : result objective :=
  let (i, E) := iE in
  let* inner := self (OfExpectationValue E) (Name variable) false in
  OK (Mul (Leaf {| expectationvalues := expectationvalues obj;
                   transformation_of :=
                     jax_jit_grad (transformation_of obj) i |})
          inner).

(** The object [grad] works on: [obj] after the two compilation passes,
    or [obj] itself when [no_compile] is set. *)
Definition compiled_of (obj : grad_input) (no_compile : bool) : grad_input :=
  if no_compile then obj
  else run compile_controlled_rotation (run compile_trotterized_gate obj).

(** A gate the loop gets past: one it passes over, or one with an angle
    whose chain-rule coefficient is computed without an exception. *)
Definition gets_past (variable : string) (g : gate) : Prop :=
  differentiable g = false
  \/ exists a c, angle g = Some a
                 /\ weight_chain (parameter g) (PStr variable) = OK c.

(** Expressions on which the chain rule raises nothing: Variables, and
    Transforms of add, sub or mul over two arguments that have a value and
    are such expressions themselves. *)
Definition smooth_op (o : operator.t) : bool :=
  match o with
  | operator.add | operator.sub | operator.mul => true
  | _ => false
  end.

Definition has_value (a : pyobj) : bool :=
  match real_value a with Some _ => true | None => false end.

Fixpoint well_formed (x : pyobj) : bool :=
  match x with
  | PTransform f [a; b] =>
      smooth_op (op f) && has_value a && has_value b
      && well_formed a && well_formed b
  | PTransform _ _ => false
  | _ => true
  end.

End Gradient.

(** ** An arithmetic to run the functions in

    The real numbers as an instance of [PyFloat].  This is not binary64:
    nothing is rounded, no power overflows, no square underflows to 0.0, and
    there are no infinities and no NaN.  It is where the functions are run
    at concrete inputs, on values such as 0, 1, 2, 3 and 12 on which
    binary64 computes the same; what is stated of the module in general is
    stated for every instance of [PyFloat]. *)

Definition R_is_zero (x : R) : bool := if Req_dec_T x 0 then true else false.

(** Complex numbers as pairs of a real and an imaginary part. *)
Definition R_complex : Type := (R * R)%type.

(** The power of a negative base [x] to the exponent [y]:
    |x|**y * (cos (pi y) + i sin (pi y)). *)
Definition R_cpow (x y : R) : R_complex :=
  ((Rpower (- x) y * cos (PI * y))%R, (Rpower (- x) y * sin (PI * y))%R).

Definition R_pow (x y : R) : pow_outcome R R_complex :=
  if Rlt_dec 0 x then PowFloat (Rpower x y)
  else if Req_dec_T x 0 then
    if Rlt_dec 0 y then PowFloat 0%R
    else if Req_dec_T y 0 then PowFloat 1%R
    else PowRaise PowZeroDivision
  else if Req_dec_T (IZR (Int_part y)) y then PowFloat (powerRZ x (Int_part y))
  else PowComplex (R_cpow x y).

Definition R_fmul_fc (x : R) (z : R_complex) : R_complex :=
  ((x * fst z)%R, (x * snd z)%R).

Definition R_fdiv_fc (x : R) (z : R_complex) : option R_complex :=
  let n := (fst z * fst z + snd z * snd z)%R in
  if R_is_zero n then None
  else Some ((x * fst z / n)%R, (- (x * snd z) / n)%R).

Definition R_sum (a : list R) : R := fold_right Rplus 0%R a.

#[export] Instance RealFloat : PyFloat.
Proof.
  refine {| float := R;
            complex := R_complex;
            of_int := IZR;
            half := (1 / 2)%R;
            np_pi := PI;
            fneg := Ropp;
            fsub := Rminus;
            fmul := Rmult;
            fdiv := Rdiv;
            is_zero := R_is_zero;
            float_pow := R_pow;
            fmul_fc := R_fmul_fc;
            cmul_cf := fun z x => R_fmul_fc x z;
            fdiv_fc := R_fdiv_fc;
            np_log := ln;
            np_sum := R_sum;
            fmul_fneg_l := Ropp_mult_distr_l_reverse;
            np_sum_zeros := _ |}.
  intros n. induction n as [|n IH]; simpl; [reflexivity|].
  rewrite IH. apply Rplus_0_l.
Defined.

(** ** Collaborators for the examples

    Variables are bound by [bindings]; a Transform evaluates its operator
    on the values of its two arguments; [a + c] builds the Transform a
    Variable's [__add__] builds; compilation changes nothing; the free
    variables of an ExpectationValue are those of its gates' parameters. *)

Definition bindings (name : string) : R :=
  if String.eqb name "theta" then 2%R
  else if String.eqb name "phi" then 3%R
  else 1%R.

Definition Add_ : pyfunc := {| fname := "Add"; op := operator.add |}.
Definition Sub_ : pyfunc := {| fname := "Sub"; op := operator.sub |}.
Definition Mul_ : pyfunc := {| fname := "Mul"; op := operator.mul |}.
Definition Div_ : pyfunc := {| fname := "Div"; op := operator.truediv |}.
Definition Pow_ : pyfunc := {| fname := "Pow"; op := operator.pow |}.
Definition Mod_ : pyfunc := {| fname := "Mod"; op := operator.other "mod" |}.

Definition apply_op (o : operator.t) (x y : R) : option R :=
  match o with
  | operator.add => Some (x + y)%R
  | operator.sub => Some (x - y)%R
  | operator.mul => Some (x * y)%R
  | operator.truediv => if R_is_zero y then None else Some (x / y)%R
  | operator.pow => match R_pow x y with PowFloat z => Some z | _ => None end
  | operator.other _ => None
  end.

Fixpoint example_value (arg : @pyobj RealFloat) : option R :=
  match arg with
  | PVariable name => Some (bindings name)
  | PTransform f [a; b] =>
      match example_value a, example_value b with
      | Some x, Some y => apply_op (op f) x y
      | _, _ => None
      end
  | PNumber n => Some (float_of n)
  | _ => None
  end.

Fixpoint variables_of (arg : @pyobj RealFloat) : list string :=
  match arg with
  | PVariable name => [name]
  | PTransform _ args => flat_map variables_of args
  | _ => []
  end.

Definition identity_pass : @compiler RealFloat :=
  {| on_expectationvalue := fun E => E;
     on_objective := fun o => o;
     on_other := fun o => o |}.

Definition circuit_variables (E : @ExpectationValue RealFloat) : list string :=
  flat_map (fun g => if is_parametrized g then variables_of (parameter g) else [])
           (gates (U E)).

#[export] Instance ExampleTequila : @Collaborators RealFloat := {|
  real_value := example_value;
  expr_add := fun a c => PTransform Add_ [a; PNumber (NFloat c)];
  expr_sub := fun a c => PTransform Sub_ [a; PNumber (NFloat c)];
  compile_trotterized_gate := identity_pass;
  compile_controlled_rotation := identity_pass;
  extract_variables_E := circuit_variables;
  extract_variables_O :=
    fun o => flat_map circuit_variables (expectationvalues o)
|}.

(** The operators as functions on the reals, and where they and their
    table entries are defined. *)
Definition op_R (o : operator.t) (x y : R) : R :=
  match o with
  | operator.add => (x + y)%R
  | operator.sub => (x - y)%R
  | operator.mul => (x * y)%R
  | operator.truediv => (x / y)%R
  | operator.pow => Rpower x y
  | operator.other _ => 0%R
  end.

Definition in_domain (o : operator.t) (x y : R) : Prop :=
  match o with
  | operator.truediv => y <> 0%R
  | operator.pow => (0 < x)%R
  | operator.other _ => False
  | _ => True
  end.

(** ** Example circuits *)

Definition theta : @pyobj RealFloat := PVariable "theta".
Definition phi : @pyobj RealFloat := PVariable "phi".

(** A rotation gate whose angle is its parameter. *)
Definition rotation (name : string) (a : @pyobj RealFloat) (is_frozen : bool)
  : @gate RealFloat :=
  {| gate_name := name; is_parametrized := true; frozen := is_frozen;
     parameter := a; angle := Some a; power := None |}.

(** A gate without parameter. *)
Definition fixed (name : string) : @gate RealFloat :=
  {| gate_name := name; is_parametrized := false; frozen := false;
     parameter := PNone; angle := None; power := None |}.

(** A power gate: a [power] attribute and no [angle]. *)
Definition power_gate (name : string) (a : @pyobj RealFloat) : @gate RealFloat :=
  {| gate_name := name; is_parametrized := true; frozen := false;
     parameter := a; angle := None; power := Some a |}.

(** A parametrized gate with neither [angle] nor [power]. *)
Definition other_gate (name : string) (a : @pyobj RealFloat) : @gate RealFloat :=
  {| gate_name := name; is_parametrized := true; frozen := false;
     parameter := a; angle := None; power := None |}.

Definition Z0 : hamiltonian := Hamiltonian "Z(0)".

Definition expectation (gs : list (@gate RealFloat)) : @ExpectationValue RealFloat :=
  {| U := {| gates := gs |}; H := Z0 |}.

(** Rx(theta) Ry(phi) *)
Definition E_two_rotations := expectation [rotation "Rx" theta false; rotation "Ry" phi false].

(** H Rx(theta), with Rx frozen *)
Definition E_frozen := expectation [fixed "H"; rotation "Rx" theta true].

(** H Rx(phi), with Rx frozen *)
Definition E_frozen_phi := expectation [fixed "H"; rotation "Rx" phi true].

(** Rx(theta) followed by a power gate *)
Definition E_power := expectation [rotation "Rx" theta false; power_gate "Xpow" phi].

(** A gate of an unsupported kind followed by a power gate *)
Definition E_other_then_power := expectation [other_gate "G" theta; power_gate "Xpow" phi].

(** An Objective over two expectation values, the second of which does not
    depend on theta. *)
Definition O_two : @Objective RealFloat :=
  {| expectationvalues := [expectation [rotation "Rx" theta false];
                           expectation [rotation "Ry" phi false]];
     transformation_of := callable "f" |}.

(** A value that is neither an Objective nor an ExpectationValue. *)
Definition a_circuit : other :=
  {| other_type := "QCircuit"; other_variables := Some ["theta"] |}.

Definition an_int : other :=
  {| other_type := "int"; other_variables := None |}.

(** The entries of the table in real arithmetic. *)
Definition table_R (o : operator.t) (i : nat) (x y : R) : R :=
  match i, o with
  | 0%nat, operator.add => 1
  | 0%nat, operator.sub => 1
  | 0%nat, operator.mul => y
  | 0%nat, operator.truediv => 1 / y
  | 0%nat, operator.pow => y * Rpower x (y - 1)
  | _, operator.add => 1
  | _, operator.sub => - 1
  | _, operator.mul => x
  | _, operator.truediv => - x / (y * y)
  | _, operator.pow => Rpower x y * ln x
  | _, operator.other _ => 0
  end%R.

(** ** Readings of the loops and of the results *)

Section Readings.

Context {FL : PyFloat} {TQ : Collaborators}.

(** The operators of the table of [tgrad]. *)
Definition supported (o : operator.t) : bool :=
  match o with
  | operator.other _ => false
  | _ => true
  end.

(** What the body of the loop of [__grad_expectationvalue] does with a
    differentiable gate [g] at position [i]: its contribution when it has
    an angle, NotImplemented when it has a power and no angle, the
    exception of the unsupported gate kinds otherwise. *)
Definition gate_term (unitary : QCircuit) (hamiltonian : hamiltonian)
  (variable : string) (ig : nat * gate) : result objective :=
  let (i, g) := ig in
  match angle g with
  | Some a =>
      let* c := weight_chain (parameter g) (PStr variable) in
      OK (contribution unitary hamiltonian i g a c)
  | None =>
      match power g with
      | Some _ => Raise NotImplemented
      | None => Raise UnsupportedGateKind
      end
  end.

(** The differentiable gates of a circuit, with their positions. *)
Definition differentiable_gates (unitary : QCircuit) : list (nat * gate) :=
  List.filter (fun ig => differentiable (snd ig)) (enumerate (gates unitary)).

(** The circuits of the expectation values of a result, left to right. *)
Fixpoint circuits_of (o : objective) : list QCircuit :=
  match o with
  | Leaf obj => map U (expectationvalues obj)
  | RMul _ o' => circuits_of o'
  | Add a b => circuits_of a ++ circuits_of b
  | Mul a b => circuits_of a ++ circuits_of_value b
  end
with circuits_of_value (v : pyvalue) : list QCircuit :=
  match v with
  | VNone => []
  | VObjective o => circuits_of o
  | VList l =>
      (fix all (l : list pyvalue) : list QCircuit :=
         match l with
         | [] => []
         | v' :: l' => circuits_of_value v' ++ all l'
         end) l
  end.

End Readings.

(** * Properties *)

(** ** The error monad *)

Lemma bind_OK {A B} (m : result A) (k : A -> result B) (b : B) :
  bind m k = OK b -> exists a, m = OK a /\ k a = OK b.
Proof. destruct m as [a|e]; simpl; [eauto | discriminate]. Qed.

Lemma bind_Raise {A B} (m : result A) (k : A -> result B) (e : exn) :
  bind m k = Raise e -> m = Raise e \/ exists a, m = OK a /\ k a = Raise e.
Proof. destruct m as [a|e']; simpl; [eauto | intros [= ->]; auto]. Qed.

Lemma mapM_ext {A B} (g h : A -> result B) (xs : list A) :
  (forall x, In x xs -> g x = h x) -> mapM g xs = mapM h xs.
Proof.
  induction xs as [|x xs IH]; simpl; intros E; [reflexivity|].
  rewrite (E x) by auto. rewrite IH by auto. reflexivity.
Qed.

Lemma mapM_length {A B} (g : A -> result B) (xs : list A) (ys : list B) :
  mapM g xs = OK ys -> length ys = length xs.
Proof.
  revert ys. induction xs as [|x xs IH]; simpl; intros ys.
  - intros [= <-]. reflexivity.
  - destruct (g x); simpl; [|discriminate].
    destruct (mapM g xs); simpl; [|discriminate].
    intros [= <-]. simpl. f_equal. apply IH. reflexivity.
Qed.

Lemma mapM_Raise {A B} (g : A -> result B) (xs : list A) (e : exn) :
  mapM g xs = Raise e -> exists x, In x xs /\ g x = Raise e.
Proof.
  induction xs as [|x xs IH]; simpl; [discriminate|].
  destruct (g x) eqn:Gx; simpl.
  - destruct (mapM g xs); simpl; [discriminate|].
    intros [= ->]. destruct IH as (x' & I & G'); eauto.
  - intros [= ->]. eauto.
Qed.

(** ** The partial-derivative table *)

Section TableFacts.

Context {FL : PyFloat}.

(** An operator outside the table is rejected at both positions. *)
Lemma tgrad_unsupported_operator (f : pyfunc) (name : string) (argnum : Z) :
  op f = operator.other name -> argnum = 0%Z \/ argnum = 1%Z ->
  tgrad f argnum = Raise UnsupportedOperation.
Proof.
  intros Hop [-> | ->]; unfold tgrad; simpl; rewrite Hop; reflexivity.
Qed.

(** Any other position falls through both branches: the function ends
    without a [return] and without a [raise]. *)
Lemma tgrad_falls_through (f : pyfunc) (argnum : Z) :
  argnum <> 0%Z -> argnum <> 1%Z -> tgrad f argnum = OK None.
Proof.
  intros H0 H1. unfold tgrad.
  destruct (Z.eqb_spec argnum 0); [contradiction|].
  destruct (Z.eqb_spec argnum 1); [contradiction|].
  reflexivity.
Qed.

(** [tgrad] raises only for an operator outside the table at position 0
    or 1. *)
Lemma tgrad_raises_iff (f : pyfunc) (argnum : Z) (e : exn) :
  tgrad f argnum = Raise e <->
  e = UnsupportedOperation /\ (argnum = 0%Z \/ argnum = 1%Z)
  /\ exists name, op f = operator.other name.
Proof.
  split.
  - unfold tgrad.
    destruct (Z.eqb_spec argnum 0) as [->|N0];
      [|destruct (Z.eqb_spec argnum 1) as [->|N1]];
      try discriminate;
      destruct (op f) eqn:Hop; try discriminate;
      intros [= <-]; eauto 6.
  - intros (-> & Harg & name & Hop).
    eapply tgrad_unsupported_operator; eauto.
Qed.

End TableFacts.

(** The closed forms of the table, read over the real numbers, are the
    partial derivatives of the operators. *)

Lemma R_is_zero_false (y : R) : y <> 0%R -> R_is_zero y = false.
Proof. intros N. unfold R_is_zero. destruct (Req_dec_T y 0); [contradiction|reflexivity]. Qed.

Lemma R_pow_positive (x y : R) : (0 < x)%R -> R_pow x y = PowFloat (Rpower x y).
Proof. intros P. unfold R_pow. destruct (Rlt_dec 0 x); [reflexivity|contradiction]. Qed.

Lemma Rpower_2_2 : Rpower 2 2 = 4%R.
Proof.
  replace 2%R with (1 + 1)%R at 2 by lra.
  rewrite Rpower_plus, Rpower_1 by lra. lra.
Qed.

Lemma table_R_is_partial_derivative_0 (o : operator.t) (x y : R) :
  in_domain o x y ->
  derivable_pt_lim (fun t => op_R o t y) x (table_R o 0 x y).
Proof.
  pose proof (derivable_pt_lim_id x) as Hid.
  pose proof (derivable_pt_lim_const y x) as Hc.
  destruct o; simpl; intros D.
  - pose proof (derivable_pt_lim_plus _ _ _ _ _ Hid Hc) as Hd.
    unfold plus_fct, fct_cte, id in Hd.
    replace (1 + 0)%R with 1%R in Hd by lra. exact Hd.
  - pose proof (derivable_pt_lim_minus _ _ _ _ _ Hid Hc) as Hd.
    unfold minus_fct, fct_cte, id in Hd.
    replace (1 - 0)%R with 1%R in Hd by lra. exact Hd.
  - pose proof (derivable_pt_lim_mult _ _ _ _ _ Hid Hc) as Hd.
    unfold mult_fct, fct_cte, id in Hd.
    replace (1 * y + x * 0)%R with y in Hd by lra. exact Hd.
  - pose proof (derivable_pt_lim_div _ _ _ _ _ Hid Hc D) as Hd.
    unfold div_fct, fct_cte, id, Rsqr in Hd.
    replace ((1 * y - 0 * x) / (y * y))%R with (1 / y)%R in Hd
      by (field; exact D).
    exact Hd.
  - apply derivable_pt_lim_power. exact D.
  - contradiction.
Qed.

Lemma table_R_is_partial_derivative_1 (o : operator.t) (x y : R) :
  in_domain o x y ->
  derivable_pt_lim (fun t => op_R o x t) y (table_R o 1 x y).
Proof.
  pose proof (derivable_pt_lim_id y) as Hid.
  pose proof (derivable_pt_lim_const x y) as Hc.
  destruct o; simpl; intros D.
  - pose proof (derivable_pt_lim_plus _ _ _ _ _ Hc Hid) as Hd.
    unfold plus_fct, fct_cte, id in Hd.
    replace (0 + 1)%R with 1%R in Hd by lra. exact Hd.
  - pose proof (derivable_pt_lim_minus _ _ _ _ _ Hc Hid) as Hd.
    unfold minus_fct, fct_cte, id in Hd.
    replace (0 - 1)%R with (- 1)%R in Hd by lra. exact Hd.
  - pose proof (derivable_pt_lim_mult _ _ _ _ _ Hc Hid) as Hd.
    unfold mult_fct, fct_cte, id in Hd.
    replace (0 * y + x * 1)%R with x in Hd by lra. exact Hd.
  - pose proof (derivable_pt_lim_div _ _ _ _ _ Hc Hid D) as Hd.
    unfold div_fct, fct_cte, id, Rsqr in Hd.
    replace ((0 * y - 1 * x) / (y * y))%R with (- x / (y * y))%R in Hd
      by (field; exact D).
    exact Hd.
  - pose proof (derivable_pt_lim_const (ln x) y) as Hl.
    pose proof (derivable_pt_lim_mult _ _ _ _ _ Hid Hl) as Hm.
    pose proof (derivable_pt_lim_comp _ _ _ _ _ Hm
                  (derivable_pt_lim_exp _)) as Hd.
    unfold comp, mult_fct, fct_cte, id in Hd.
    replace (exp (y * ln x) * (1 * ln x + y * 0))%R
      with (Rpower x y * ln x)%R in Hd by (unfold Rpower; ring).
    exact Hd.
  - contradiction.
Qed.

(** C3. For every supported operator and both argument positions, the
    function [tgrad] returns computes the closed form of the partial
    derivative in the float arithmetic: add gives 1.0 and 1.0; sub gives
    1.0 and -1.0; mul gives y and x; truediv gives 1/y (ZeroDivisionError
    for y == 0) and -x/y**2; pow gives y * x**(y-1) and x**y * log(x),
    a complex number where the power is one; every use of an argument goes
    through [float(.)].  At x = 2.0, y = 3.0, mul gives 3.0 and 2.0, and
    pow gives 12.0 at position 0 in every arithmetic in which
    3.0 - 1 = 2.0, 2.0 ** 2.0 = 4.0 and 3.0 * 4.0 = 12.0.  Read over the
    real numbers, the closed forms are the partial derivatives of the
    operators in x and in y wherever the operator is defined. *)
Theorem tgrad_closed_forms :
  (forall (FL : PyFloat) (x y : number),
      partial Add_ 0 x y = OK (PFloat (of_int 1))
      /\ partial Add_ 1 x y = OK (PFloat (of_int 1))
      /\ partial Sub_ 0 x y = OK (PFloat (of_int 1))
      /\ partial Sub_ 1 x y = OK (PFloat (fneg (of_int 1)))
      /\ partial Mul_ 0 x y = OK (PFloat (float_of y))
      /\ partial Mul_ 1 x y = OK (PFloat (float_of x))
      /\ partial Div_ 0 x y =
           (if is_zero (float_of y) then Raise ZeroDivisionError
            else OK (PFloat (fdiv (of_int 1) (float_of y))))
      /\ partial Div_ 1 x y =
           match float_pow (float_of y) (of_int 2) with
           | PowFloat d =>
               if is_zero d then Raise ZeroDivisionError
               else OK (PFloat (fdiv (fneg (float_of x)) d))
           | PowComplex z =>
               match fdiv_fc (fneg (float_of x)) z with
               | Some c => OK (PComplex c)
               | None => Raise ZeroDivisionError
               end
           | PowRaise e => Raise (PowError e)
           end
      /\ partial Pow_ 0 x y =
           match float_pow (float_of x) (fsub (float_of y) (of_int 1)) with
           | PowFloat p => OK (PFloat (fmul (float_of y) p))
           | PowComplex z => OK (PComplex (fmul_fc (float_of y) z))
           | PowRaise e => Raise (PowError e)
           end
      /\ partial Pow_ 1 x y =
           match float_pow (float_of x) (float_of y) with
           | PowFloat p => OK (PFloat (fmul p (np_log (float_of x))))
           | PowComplex z => OK (PComplex (cmul_cf z (np_log (float_of x))))
           | PowRaise e => Raise (PowError e)
           end)
  /\ (forall (FL : PyFloat) (f : pyfunc) (argnum : Z) (fn : lambda),
         tgrad f argnum = OK (Some fn) ->
         forall (x y : number),
           fn x y = fn (NFloat (float_of x)) (NFloat (float_of y)))
  /\ (forall (FL : PyFloat),
         partial Mul_ 0 (NFloat (of_int 2)) (NFloat (of_int 3))
         = OK (PFloat (of_int 3))
         /\ partial Mul_ 1 (NFloat (of_int 2)) (NFloat (of_int 3))
            = OK (PFloat (of_int 2))
         /\ (fsub (of_int 3) (of_int 1) = of_int 2 ->
             float_pow (of_int 2) (of_int 2) = PowFloat (of_int 4) ->
             fmul (of_int 3) (of_int 4) = of_int 12 ->
             partial Pow_ 0 (NFloat (of_int 2)) (NFloat (of_int 3))
             = OK (PFloat (of_int 12))))
  /\ (forall (o : operator.t) (x y : R),
         in_domain o x y ->
         derivable_pt_lim (fun t => op_R o t y) x (table_R o 0 x y)
         /\ derivable_pt_lim (fun t => op_R o x t) y (table_R o 1 x y)).
Proof.
  split; [|split; [|split]].
  - intros FL x y. unfold partial, tgrad, py_pow, py_truediv; simpl.
    repeat split; try reflexivity.
    + destruct (is_zero (float_of y)); reflexivity.
    + destruct (float_pow (float_of y) (of_int 2)) as [d|z|e]; simpl;
        try reflexivity.
      unfold py_truediv. destruct (is_zero d); reflexivity.
    + destruct (float_pow _ _); reflexivity.
    + destruct (float_pow _ _); reflexivity.
  - intros FL f argnum fn. unfold tgrad.
    destruct (argnum =? 0)%Z; [|destruct (argnum =? 1)%Z];
      try discriminate;
      destruct (op f); try discriminate;
      intros [= <-] x y; reflexivity.
  - intros FL. split; [reflexivity|]. split; [reflexivity|].
    intros Hsub Hpow Hmul. unfold partial, tgrad, py_pow; simpl.
    rewrite Hsub, Hpow. simpl. rewrite Hmul. reflexivity.
  - intros o x y D. split.
    + apply table_R_is_partial_derivative_0. exact D.
    + apply table_R_is_partial_derivative_1. exact D.
Qed.

(** ** The chain rule *)

Section ChainFacts.

Context {FL : PyFloat} {TQ : Collaborators}.

(** Induction on the expression graph, through the argument lists. *)
Section NestedInduction.

Variable P : pyobj -> Prop.
Hypothesis HVariable : forall name, P (PVariable name).
Hypothesis HTransform : forall f args, Forall P args -> P (PTransform f args).
Hypothesis HStr : forall s, P (PStr s).
Hypothesis HNumber : forall n, P (PNumber n).
Hypothesis HNone : P PNone.

Lemma pyobj_nested_ind : forall x : pyobj, P x.
Proof.
  fix IH 1.
  intros [name|f args|s|n|];
    [apply HVariable| |apply HStr|apply HNumber|apply HNone].
  apply HTransform. revert args.
  fix IHargs 1. intros [|a args].
  - constructor.
  - constructor; [apply IH|apply IHargs].
Qed.

End NestedInduction.

Lemma weight_chain_eq (par variable : pyobj) :
  weight_chain par variable =
  match par with
  | PVariable name =>
      let* var := local "var" (assign_var variable) in
      if String.eqb name var then OK (of_int 1) else OK (of_int 0)
  | PTransform f args =>
      let* var := local "var" (assign_var variable) in
      if has_var par var then
        let* expan :=
          chain_loop (fun a => weight_chain a (PStr var)) f args var args 0
                     (np_zeros (length args)) in
        OK (np_sum expan)
      else OK (np_sum (np_zeros (length args)))
  | _ => Raise (InvalidOperand (type_str par))
  end.
Proof. destruct par; reflexivity. Qed.

Lemma insert_at_end_of_prefix (done zs : list float) (z x : float) :
  <[length done := x]> (done ++ z :: zs) = (done ++ [x]) ++ zs.
Proof.
  rewrite insert_app_r_alt by lia.
  rewrite Nat.sub_diag. simpl. rewrite <- app_assoc. reflexivity.
Qed.

(** The loop over the argument positions fills [expan] with the
    contributions of the arguments, position by position. *)
Lemma chain_loop_spec (f : pyfunc) (args : list pyobj) (var : string)
  (rest : list pyobj) (done : list float) :
  chain_loop (fun a => weight_chain a (PStr var)) f args var rest
             (length done) (done ++ np_zeros (length rest)) =
  let* terms := mapM (chain_term f args var) (enumerate_from (length done) rest) in
  OK (done ++ terms).
Proof.
  revert done. induction rest as [|a rest IH]; intros done.
  - simpl. reflexivity.
  - cbn [chain_loop enumerate_from mapM chain_term length np_zeros repeat].
    assert (Hstep : forall x : float,
      chain_loop (fun a0 => weight_chain a0 (PStr var)) f args var rest
        (S (length done)) (<[length done := x]> (done ++ of_int 0 :: np_zeros (length rest))) =
      let* terms := mapM (chain_term f args var)
                         (enumerate_from (S (length done)) rest) in
      OK (done ++ x :: terms)).
    { intros x. rewrite insert_at_end_of_prefix.
      specialize (IH (done ++ [x])). rewrite length_app in IH. simpl in IH.
      rewrite Nat.add_1_r in IH. rewrite IH.
      destruct (mapM _ _); simpl; [|reflexivity].
      rewrite <- app_assoc. reflexivity. }
    change (repeat (of_int 0) (length rest)) with (np_zeros (length rest)).
    destruct (has_variable a var).
    + destruct (mapM complex_real args) as [floats|e]; simpl; [|reflexivity].
      destruct (tgrad f (Z.of_nat (length done))) as [d|e]; simpl; [|reflexivity].
      destruct (call d floats) as [p|e]; simpl; [|reflexivity].
      destruct (weight_chain a (PStr var)) as [w|e]; simpl; [|reflexivity].
      destruct (store (mul_num_float p w)) as [t|e]; simpl; [|reflexivity].
      rewrite Hstep. destruct (mapM _ _); reflexivity.
    + simpl. rewrite Hstep. destruct (mapM _ _); reflexivity.
Qed.

Lemma weight_chain_Transform (f : pyfunc) (args : list pyobj)
  (variable : pyobj) (v : string) :
  assign_var variable = Some v ->
  weight_chain (PTransform f args) variable =
  if has_variable (PTransform f args) v then chain_rule_sum f args v
  else OK (of_int 0).
Proof.
  intros Hv. rewrite weight_chain_eq, Hv. cbn [local bind]. unfold has_var.
  destruct (has_variable (PTransform f args) v).
  - pose proof (chain_loop_spec f args v args []) as E. simpl in E.
    rewrite E. unfold chain_rule_sum, enumerate.
    destruct (mapM _ _); reflexivity.
  - unfold np_zeros. rewrite np_sum_zeros. reflexivity.
Qed.

End ChainFacts.

(** C2. The chain-rule evaluator computes the total derivative: a Variable
    node gives 1.0 when its name is the target's and 0.0 otherwise; a
    Transform that does not contain the target gives 0.0, whatever its
    arguments are; a Transform that contains it gives the sum over the
    argument positions i of the table entry of f at i, applied to the
    current values of all the arguments, times the derivative of argument
    i, arguments without the target contributing 0.  For two arguments
    with the values x and y, the entry of position i is
    [tgrad(f, i)(x, y)]. *)
Theorem weight_chain_total_derivative
  {FL : PyFloat} {TQ : Collaborators} (variable : pyobj) (v : string) :
  assign_var variable = Some v ->
  (forall name,
      weight_chain (PVariable name) variable =
      OK (if String.eqb name v then of_int 1 else of_int 0))
  /\ (forall f args,
         has_variable (PTransform f args) v = false ->
         weight_chain (PTransform f args) variable = OK (of_int 0))
  /\ (forall f args,
         has_variable (PTransform f args) v = true ->
         weight_chain (PTransform f args) variable =
         let* terms :=
           mapM (fun ia : nat * pyobj =>
                   if has_variable (snd ia) v then
                     let* floats := mapM complex_real args in
                     let* d := tgrad f (Z.of_nat (fst ia)) in
                     let* p :=
                       match d with
                       | None =>
                           Raise (TypeError "'NoneType' object is not callable")
                       | Some fn =>
                           match floats with
                           | [x; y] => fn (NFloat x) (NFloat y)
                           | _ =>
                               Raise (TypeError
                                        "<lambda>() takes 2 positional arguments")
                           end
                       end in
                     let* w := weight_chain (snd ia) (PStr v) in
                     match p with
                     | PFloat q => OK (fmul q w)
                     | PComplex _ =>
                         Raise (TypeError "can't convert complex to float")
                     end
                   else OK (of_int 0))
                (enumerate args) in
         OK (np_sum terms))
  /\ (forall f a b x y,
         real_value a = Some x -> real_value b = Some y ->
         has_variable (PTransform f [a; b]) v = true ->
         weight_chain (PTransform f [a; b]) variable =
         let* t0 :=
           if has_variable a v then
             let* p := partial f 0 (NFloat x) (NFloat y) in
             let* w := weight_chain a (PStr v) in
             match p with
             | PFloat q => OK (fmul q w)
             | PComplex _ => Raise (TypeError "can't convert complex to float")
             end
           else OK (of_int 0) in
         let* t1 :=
           if has_variable b v then
             let* p := partial f 1 (NFloat x) (NFloat y) in
             let* w := weight_chain b (PStr v) in
             match p with
             | PFloat q => OK (fmul q w)
             | PComplex _ => Raise (TypeError "can't convert complex to float")
             end
           else OK (of_int 0) in
         OK (np_sum [t0; t1])).
Proof.
  intros Hv. split; [|split; [|split]].
  - intros name. rewrite weight_chain_eq, Hv. simpl.
    destruct (String.eqb name v); reflexivity.
  - intros f args Hno. rewrite (weight_chain_Transform f args variable v Hv), Hno.
    reflexivity.
  - intros f args Hyes. rewrite (weight_chain_Transform f args variable v Hv), Hyes.
    unfold chain_rule_sum.
    match goal with
    | |- _ = bind (mapM ?h _) _ =>
        rewrite (mapM_ext (chain_term f args v) h)
    end; [reflexivity|].
    intros [i a] _. unfold chain_term, call, store, mul_num_float. cbn [fst snd].
    destruct (has_variable a v); [|reflexivity].
    destruct (mapM complex_real args) as [floats|]; [|reflexivity]. cbn [bind].
    destruct (tgrad f (Z.of_nat i)) as [d|]; [|reflexivity]. cbn [bind].
    match goal with |- bind ?P _ = bind ?P _ => destruct P as [p|] end;
      [|reflexivity].
    cbn [bind]. destruct (weight_chain a (PStr v)); [|reflexivity].
    cbn [bind]. destruct p; reflexivity.
  - intros f a b x y Hx Hy Hyes.
    rewrite (weight_chain_Transform f [a; b] variable v Hv), Hyes.
    unfold chain_rule_sum, enumerate. cbn [enumerate_from mapM].
    assert (T : forall (i : nat) (arg : pyobj),
              chain_term f [a; b] v (i, arg) =
              if has_variable arg v then
                let* p := partial f (Z.of_nat i) (NFloat x) (NFloat y) in
                let* w := weight_chain arg (PStr v) in
                match p with
                | PFloat q => OK (fmul q w)
                | PComplex _ => Raise (TypeError "can't convert complex to float")
                end
              else OK (of_int 0)).
    { intros i arg. unfold chain_term, partial, call, store, mul_num_float.
      destruct (has_variable arg v); [|reflexivity].
      cbn [mapM]. unfold complex_real. rewrite Hx, Hy. cbn [bind].
      destruct (tgrad f (Z.of_nat i)) as [[fn|]|]; try reflexivity. cbn [bind].
      destruct (fn (NFloat x) (NFloat y)) as [p|]; [|reflexivity]. cbn [bind].
      destruct (weight_chain arg (PStr v)); [|reflexivity].
      cbn [bind]. destruct p; reflexivity. }
    rewrite !T. change (Z.of_nat 0) with 0%Z. change (Z.of_nat 1) with 1%Z.
    match goal with
    | |- _ = bind ?A _ => destruct A as [t0|]; [|reflexivity]
    end.
    cbn [bind].
    match goal with
    | |- _ = bind ?B _ => destruct B as [t1|]; reflexivity
    end.
Qed.

(** ** Which exceptions the chain rule raises *)

Section ChainErrors.

Context {FL : PyFloat} {TQ : Collaborators}.

Lemma py_truediv_Raise (x y : float) (e : exn) :
  py_truediv x y = Raise e -> e = ZeroDivisionError.
Proof. unfold py_truediv. destruct (is_zero y); congruence. Qed.

Lemma py_pow_Raise (x y : float) (e : exn) :
  py_pow x y = Raise e -> exists pe, e = PowError pe.
Proof.
  unfold py_pow. destruct (float_pow x y); try discriminate.
  intros [= <-]. eauto.
Qed.

Lemma div_float_num_Raise (a : float) (p : pynum) (e : exn) :
  div_float_num a p = Raise e -> e = ZeroDivisionError.
Proof.
  unfold div_float_num. destruct p as [x|z].
  - intros D. apply bind_Raise in D as [D|(q & _ & D)]; [|discriminate].
    apply py_truediv_Raise in D. exact D.
  - destruct (fdiv_fc a z); congruence.
Qed.

Lemma store_Raise (v : pynum) (e : exn) :
  store v = Raise e -> exists msg, e = TypeError msg.
Proof. unfold store. destruct v; [discriminate|]. intros [= <-]. eauto. Qed.

Lemma complex_real_Raise (args : list pyobj) (e : exn) :
  mapM complex_real args = Raise e -> e = CollaboratorError "complex".
Proof.
  intros M. apply mapM_Raise in M as (x & _ & Hx).
  unfold complex_real in Hx. destruct (real_value x); congruence.
Qed.

Lemma call_Raise (f : pyfunc) (argnum : Z) (d : option lambda)
  (floats : list float) (e : exn) :
  tgrad f argnum = OK d -> call d floats = Raise e -> table_or_arithmetic e.
Proof.
  unfold table_or_arithmetic, tgrad, call. intros T C.
  destruct d as [fn|]; [|injection C as <-; eauto 6].
  destruct floats as [|x [|y [|z floats]]]; try (injection C as <-; eauto 6).
  destruct (argnum =? 0)%Z; [|destruct (argnum =? 1)%Z]; try discriminate;
    destruct (op f); try discriminate; injection T as <-; try discriminate.
  - apply bind_Raise in C as [C|(q & _ & C)]; [|discriminate].
    apply py_truediv_Raise in C. auto.
  - apply bind_Raise in C as [C|(p & _ & C)]; [|discriminate].
    apply py_pow_Raise in C. auto 6.
  - apply bind_Raise in C as [C|(p & _ & C)].
    + apply py_pow_Raise in C. auto 6.
    + apply div_float_num_Raise in C. auto.
  - apply bind_Raise in C as [C|(p & _ & C)]; [|discriminate].
    apply py_pow_Raise in C. auto 6.
Qed.

(** An exception of the loop is one of the table or of arithmetic, or it
    comes out of the recursive call on an argument that contains [var]. *)
Lemma chain_loop_Raise (rec : pyobj -> result float) (f : pyfunc)
  (args : list pyobj) (var : string) (rest : list pyobj) (i : nat)
  (expan : list float) (e : exn) :
  chain_loop rec f args var rest i expan = Raise e ->
  table_or_arithmetic e
  \/ exists a, In a rest /\ has_variable a var = true /\ rec a = Raise e.
Proof.
  revert i expan. induction rest as [|a rest IH]; intros i expan; simpl.
  - discriminate.
  - destruct (has_variable a var) eqn:Ha.
    + intros L.
      apply bind_Raise in L as [L|(floats & _ & L)].
      { left. apply complex_real_Raise in L. unfold table_or_arithmetic. auto. }
      apply bind_Raise in L as [L|(d & Hd & L)].
      { left. apply tgrad_raises_iff in L as (-> & _).
        unfold table_or_arithmetic. auto. }
      apply bind_Raise in L as [L|(p & _ & L)].
      { left. eapply call_Raise; eauto. }
      apply bind_Raise in L as [L|(w & _ & L)].
      { right. exists a. auto. }
      apply bind_Raise in L as [L|(t & _ & L)].
      { left. apply store_Raise in L. unfold table_or_arithmetic. auto. }
      apply IH in L as [L|(a' & I & Ha' & R)]; [auto|].
      right. exists a'. auto.
    + intros L. apply IH in L as [L|(a' & I & Ha' & R)]; [auto|].
      right. exists a'. auto.
Qed.

Lemma has_variable_is_node (a : pyobj) (var : string) :
  has_variable a var = true -> is_node a = true.
Proof. destruct a; simpl; congruence. Qed.

Lemma assign_var_None (variable : pyobj) :
  assign_var variable = None <->
  type_is_Variable variable = false /\ type_is_str variable = false.
Proof. destruct variable; simpl; intuition congruence. Qed.

(** Every way [__weight_chain] raises. *)
Lemma weight_chain_Raise (par : pyobj) :
  forall (variable : pyobj) (e : exn),
    weight_chain par variable = Raise e ->
    (is_node par = false /\ e = InvalidOperand (type_str par))
    \/ (is_node par = true /\ assign_var variable = None
        /\ e = UnboundLocalError "var")
    \/ (is_node par = true /\ assign_var variable <> None
        /\ table_or_arithmetic e).
Proof.
  induction par as [name|f args IH|s|n|] using pyobj_nested_ind;
    intros variable e; rewrite weight_chain_eq;
    try (intros [= <-]; left; split; reflexivity).
  - destruct (assign_var variable) as [v|] eqn:Hv; simpl.
    + destruct (String.eqb name v); discriminate.
    + intros [= <-]. right. left. auto.
  - destruct (assign_var variable) as [v|] eqn:Hv; cbn [local bind].
    + intros W. right. right. split; [reflexivity|]. split; [congruence|].
      destruct (has_var (PTransform f args) v); [|discriminate].
      apply bind_Raise in W as [W|(expan & _ & W)]; [|discriminate].
      apply chain_loop_Raise in W as [W|(a & I & Ha & W)]; [exact W|].
      rewrite Forall_forall in IH.
      destruct (IH a (proj2 (list_elem_of_In _ _) I) _ _ W)
        as [(N & _)|[(_ & A & _)|(_ & _ & T)]].
      * apply has_variable_is_node in Ha. congruence.
      * discriminate.
      * exact T.
    + intros [= <-]. right. left. auto.
Qed.

End ChainErrors.

Lemma InvalidOperand_not_table (ty : string) (e : exn) :
  table_or_arithmetic e -> e <> InvalidOperand ty.
Proof.
  unfold table_or_arithmetic, InvalidOperand, UnsupportedOperation.
  intros [-> | [-> | [(msg & ->) | [-> | (pe & ->)]]]]; cbn; congruence.
Qed.

(** C8 (amended). The chain-rule evaluator raises InvalidOperand exactly
    when the node is neither a Variable nor an Expression Node, whatever
    the target is; a plain string given as the node is such a value and is
    rejected with InvalidOperand. *)
Theorem weight_chain_InvalidOperand_iff
  {FL : PyFloat} {TQ : Collaborators} (par variable : pyobj) :
  ((exists ty, weight_chain par variable = Raise (InvalidOperand ty))
   <-> is_node par = false)
  /\ (is_node par = false ->
      weight_chain par variable = Raise (InvalidOperand (type_str par)))
  /\ (forall s, weight_chain (PStr s) variable
                = Raise (InvalidOperand "<class 'str'>")).
Proof.
  assert (Hinv : is_node par = false ->
                 weight_chain par variable = Raise (InvalidOperand (type_str par))).
  { rewrite weight_chain_eq. destruct par; simpl; congruence. }
  split; [split|split].
  - intros (ty & W).
    destruct (weight_chain_Raise par variable _ W)
      as [(N & _)|[(_ & _ & E)|(_ & _ & T)]].
    + exact N.
    + discriminate E.
    + exfalso. eapply InvalidOperand_not_table; eauto.
  - intros N. exists (type_str par). auto.
  - exact Hinv.
  - intros s. reflexivity.
Qed.

(** C8, witness: the integer 3 given as the node. *)
Lemma weight_chain_InvalidOperand_iff_witness :
  @weight_chain RealFloat ExampleTequila (PNumber (NInt 3)) (PStr "theta")
  = Raise (InvalidOperand "<class 'int'>").
Proof.
  apply (proj1 (proj2 (@weight_chain_InvalidOperand_iff RealFloat ExampleTequila
                         (PNumber (NInt 3)) (PStr "theta")))).
  reflexivity.
Defined.

(** C8, as stated, fails: a plain string variable-name given as the node
    does fail with InvalidOperand. *)
Lemma string_node_raises_InvalidOperand :
  @weight_chain RealFloat ExampleTequila (PStr "theta") (PStr "theta")
  = Raise (TequilaException
      "Object of type <class 'str'> passed to weight_chain; only strings, Variables and Transforms are allowed.").
Proof. reflexivity. Qed.

(** C10. When [variable] is neither a Variable nor a str, the local name
    [var] is never assigned and a call on a Variable node (or on a
    Transform) fails with UnboundLocalError, which is no TequilaException;
    when [variable] is a Variable or a str, no call fails that way. *)
Theorem weight_chain_unbound_var {FL : PyFloat} {TQ : Collaborators} :
  (forall variable,
      type_is_Variable variable = false -> type_is_str variable = false ->
      assign_var variable = None
      /\ (forall name,
             weight_chain (PVariable name) variable
             = Raise (UnboundLocalError "var"))
      /\ (forall f args,
             weight_chain (PTransform f args) variable
             = Raise (UnboundLocalError "var"))
      /\ (forall name msg,
             weight_chain (PVariable name) variable
             <> Raise (TequilaException msg)))
  /\ (forall par variable,
         type_is_Variable variable = true \/ type_is_str variable = true ->
         forall name, weight_chain par variable <> Raise (UnboundLocalError name)).
Proof.
  split.
  - intros variable HV HS.
    assert (Hnone : assign_var variable = None)
      by (apply assign_var_None; auto).
    split; [exact Hnone|].
    split; [|split].
    + intros name. rewrite weight_chain_eq, Hnone. reflexivity.
    + intros f args. rewrite weight_chain_eq, Hnone. reflexivity.
    + intros name msg. rewrite weight_chain_eq, Hnone. discriminate.
  - intros par variable Hty name W.
    destruct (weight_chain_Raise par variable _ W)
      as [(_ & E)|[(_ & A & _)|(_ & _ & T)]].
    + discriminate E.
    + apply assign_var_None in A as (HV & HS). destruct Hty; congruence.
    + unfold table_or_arithmetic, UnsupportedOperation in T.
      destruct T as [T | [T | [(msg & T) | [T | (pe & T)]]]]; discriminate T.
Qed.

(** C10, witness: the target [None], and the target "theta". *)
Lemma weight_chain_unbound_var_witness :
  @weight_chain RealFloat ExampleTequila (PVariable "theta") PNone
  = Raise (UnboundLocalError "var")
  /\ @weight_chain RealFloat ExampleTequila (PVariable "theta") (PStr "theta")
     <> Raise (UnboundLocalError "var").
Proof.
  split.
  - apply (proj1 (@weight_chain_unbound_var RealFloat ExampleTequila) PNone);
      reflexivity.
  - apply (proj2 (@weight_chain_unbound_var RealFloat ExampleTequila)).
    right. reflexivity.
Defined.

(** C7, at the failing input: position 2 is outside {0, 1} and [tgrad]
    returns [None] instead of raising, for a supported operator and for an
    unsupported one. *)
Theorem tgrad_position_2_returns_None :
  @tgrad RealFloat Add_ 2 = OK None /\ @tgrad RealFloat Mod_ 2 = OK None.
Proof. split; reflexivity. Qed.

(** ** The gate loop *)

Section GateLoopFacts.

Context {FL : PyFloat} {TQ : Collaborators}.

(** The increment of a gate with an angle, in terms of one chain-rule
    coefficient. *)
Lemma shift_rule_eq (unitary : QCircuit) (hamiltonian : hamiltonian)
  (variable : string) (i : nat) (g : gate) (a : pyobj) :
  shift_rule unitary hamiltonian variable i g a =
  let* c := weight_chain (parameter g) (PStr variable) in
  OK (contribution unitary hamiltonian i g a c).
Proof.
  unfold shift_rule, contribution, single, shifted_plus, shifted_minus.
  destruct (weight_chain (parameter g) (PStr variable)) as [c|e]; simpl;
    [|reflexivity].
  rewrite fmul_fneg_l. reflexivity.
Qed.

(** A gate that is not parametrized, or frozen, is passed over. *)
Lemma gate_loop_skip (unitary : QCircuit) (hamiltonian : hamiltonian)
  (variable : string) (g : gate) (rest : list gate) (i : nat)
  (dO : option objective) :
  differentiable g = false ->
  gate_loop unitary hamiltonian variable (g :: rest) i dO =
  gate_loop unitary hamiltonian variable rest (S i) dO.
Proof. unfold differentiable. intros D. simpl. rewrite D. reflexivity. Qed.

Lemma gate_loop_none_differentiable (unitary : QCircuit)
  (hamiltonian : hamiltonian) (variable : string) (gs : list gate) (i : nat)
  (dO : option objective) :
  Forall (fun g => differentiable g = false) gs ->
  gate_loop unitary hamiltonian variable gs i dO = OK dO.
Proof.
  intros F. revert i. induction F as [|g gs D F IH]; intros i.
  - reflexivity.
  - rewrite gate_loop_skip by exact D. apply IH.
Qed.

Lemma not_differentiable (g : gate) :
  is_parametrized g = false \/ is_frozen g = true -> differentiable g = false.
Proof.
  unfold differentiable. intros [-> | ->]; [reflexivity|].
  apply andb_false_r.
Qed.

(** A gate with an angle adds its increment to the accumulator. *)
Lemma gate_loop_angle (unitary : QCircuit) (hamiltonian : hamiltonian)
  (variable : string) (g : gate) (a : pyobj) (rest : list gate) (i : nat)
  (dO : option objective) :
  differentiable g = true -> angle g = Some a ->
  gate_loop unitary hamiltonian variable (g :: rest) i dO =
  let* c := weight_chain (parameter g) (PStr variable) in
  gate_loop unitary hamiltonian variable rest (S i)
            (accumulate dO (contribution unitary hamiltonian i g a c)).
Proof.
  unfold differentiable. intros D A. simpl. rewrite D, A, shift_rule_eq.
  destruct (weight_chain (parameter g) (PStr variable)); reflexivity.
Qed.

(** The loop over a prefix of gates that are passed over or differentiated
    without an exception continues with the rest of the gates. *)
Lemma gate_loop_prefix (unitary : QCircuit) (hamiltonian : hamiltonian)
  (variable : string) (pre rest : list gate) :
  Forall (gets_past variable) pre ->
  forall (i : nat) (dO : option objective),
  exists dO',
    gate_loop unitary hamiltonian variable (pre ++ rest) i dO =
    gate_loop unitary hamiltonian variable rest (i + length pre) dO'.
Proof.
  induction 1 as [|g pre Hg F IH]; intros i dO.
  - exists dO. simpl. rewrite Nat.add_0_r. reflexivity.
  - cbn [app length]. rewrite Nat.add_succ_r, <- Nat.add_succ_l.
    destruct (differentiable g) eqn:D.
    + destruct Hg as [Hg|(a & c & A & W)]; [congruence|].
      rewrite (gate_loop_angle _ _ _ g a) by assumption.
      rewrite W. cbn [bind]. apply IH.
    + rewrite gate_loop_skip by exact D. apply IH.
Qed.

(** The loop raises NotImplemented at a power gate it reaches. *)
Lemma gate_loop_power (unitary : QCircuit) (hamiltonian : hamiltonian)
  (variable : string) (gs : list gate) (i : nat) (g : gate) :
  gs !! i = Some g ->
  differentiable g = true -> angle g = None -> power g <> None ->
  Forall (gets_past variable) (take i gs) ->
  forall (k : nat) (dO : option objective),
    gate_loop unitary hamiltonian variable gs k dO = Raise NotImplemented.
Proof.
  intros Hi D Ha Hpow Hpre k dO.
  destruct (gate_loop_prefix unitary hamiltonian variable _ (drop i gs)
              Hpre k dO) as (dO' & L).
  rewrite take_drop in L. rewrite L, (drop_S _ _ _ Hi). simpl.
  unfold differentiable in D. rewrite D, Ha.
  destruct (power g); [reflexivity|contradiction].
Qed.

End GateLoopFacts.


(** C5. When every gate of the circuit is non-parametrized or frozen, the
    gradient of the expectation value is [None]: no exception, no
    Objective.  A frozen gate is passed over by the loop wherever it
    stands. *)
Theorem grad_expectationvalue_no_differentiable_gate
  {FL : PyFloat} {TQ : Collaborators}
  (E : ExpectationValue) (variable : string) :
  Forall (fun g => is_parametrized g = false \/ is_frozen g = true)
         (gates (U E)) ->
  grad_expectationvalue E variable = OK VNone
  /\ grad (OfExpectationValue E) (Name variable) true = OK VNone
  /\ forall (g : gate) (rest : list gate) (i : nat) (dO : option objective),
       is_frozen g = true ->
       gate_loop (U E) (H E) variable (g :: rest) i dO =
       gate_loop (U E) (H E) variable rest (S i) dO.
Proof.
  intros F.
  assert (G : grad_expectationvalue E variable = OK VNone).
  { unfold grad_expectationvalue.
    rewrite gate_loop_none_differentiable; [reflexivity|].
    eapply Forall_impl; [exact F|]. intros g. apply not_differentiable. }
  split; [exact G|split].
  - exact G.
  - intros g rest i dO Hf. apply gate_loop_skip, not_differentiable. auto.
Qed.

(** ** The dispatcher and the objective loop *)

Section GradFacts.

Context {FL : PyFloat} {TQ : Collaborators}.

Lemma mapM_lookup {A B} (g : A -> result B) (xs : list A) (ys : list B)
  (i : nat) (x : A) :
  mapM g xs = OK ys -> xs !! i = Some x ->
  exists y, ys !! i = Some y /\ g x = OK y.
Proof.
  revert ys i. induction xs as [|x0 xs IH]; intros ys i M L; [discriminate|].
  simpl in M. destruct (g x0) as [y0|] eqn:G0; simpl in M; [|discriminate].
  destruct (mapM g xs) as [ys'|] eqn:M'; simpl in M; [|discriminate].
  injection M as <-. destruct i as [|i]; simpl in *.
  - injection L as <-. eauto.
  - eapply IH; eauto.
Qed.

Lemma mapM_first_Raise {A B} (g : A -> result B) (pre post : list A) (x : A)
  (e : exn) :
  Forall (fun y => exists b, g y = OK b) pre -> g x = Raise e ->
  mapM g (pre ++ x :: post) = Raise e.
Proof.
  induction 1 as [|y pre (b & Hy) F IH]; intros Hx; simpl.
  - rewrite Hx. reflexivity.
  - rewrite Hy. simpl. rewrite IH by exact Hx. reflexivity.
Qed.

(** [grad] of an ExpectationValue for one name does not call [grad]. *)
Lemma grad_body_ExpectationValue (self : grad_type) (E : ExpectationValue)
  (v : string) (no_compile : bool) :
  grad_body self (OfExpectationValue E) (Name v) no_compile =
  match compiled_of (OfExpectationValue E) no_compile with
  | OfExpectationValue E' => grad_expectationvalue E' v
  | _ => Raise (AttributeError "H")
  end.
Proof. destruct no_compile; reflexivity. Qed.

Lemma objective_loop_ext (self1 self2 : grad_type)
  (evs : list ExpectationValue) (t : transformation) (v : string)
  (es : list ExpectationValue) (i : nat) (dO : option objective) :
  (forall E, self1 (OfExpectationValue E) (Name v) false
             = self2 (OfExpectationValue E) (Name v) false) ->
  objective_loop self1 evs t v es i dO = objective_loop self2 evs t v es i dO.
Proof.
  intros Hs. revert i dO. induction es as [|E es IH]; intros i dO; simpl.
  - reflexivity.
  - destruct (negb _); [apply IH|].
    rewrite Hs. destruct (self2 _ _ _); simpl; [apply IH|reflexivity].
Qed.

Lemma grad_body_Name_ext (self1 self2 : grad_type) (obj : grad_input)
  (v : string) (no_compile : bool) :
  (forall E, self1 (OfExpectationValue E) (Name v) false
             = self2 (OfExpectationValue E) (Name v) false) ->
  grad_body self1 obj (Name v) no_compile
  = grad_body self2 obj (Name v) no_compile.
Proof.
  intros Hs. unfold grad_body. cbn [bind].
  destruct obj; try reflexivity.
  destruct (if negb no_compile then _ else _); try reflexivity.
  unfold grad_objective. rewrite (objective_loop_ext self1 self2) by exact Hs.
  reflexivity.
Qed.

Lemma grad_body_ext (self1 self2 : grad_type) (obj : grad_input)
  (variable : variable_arg) (no_compile : bool) :
  (forall o v nc, self1 o (Name v) nc = self2 o (Name v) nc) ->
  grad_body self1 obj variable no_compile
  = grad_body self2 obj variable no_compile.
Proof.
  intros Hs. destruct variable as [|v|vs].
  - unfold grad_body. destruct (extract_variables _); simpl; [|reflexivity].
    rewrite (mapM_ext _ (fun v => self2 _ (Name v) true)) by (intros; apply Hs).
    reflexivity.
  - apply grad_body_Name_ext. intros E. apply Hs.
  - unfold grad_body. cbn [bind].
    rewrite (mapM_ext _ (fun v => self2 _ (Name v) true)) by (intros; apply Hs).
    reflexivity.
Qed.

Lemma grad_fuel_ExpectationValue (m : nat) (E : ExpectationValue)
  (v : string) (no_compile : bool) :
  grad_fuel (S m) (OfExpectationValue E) (Name v) no_compile
  = grad_fuel 1 (OfExpectationValue E) (Name v) no_compile.
Proof. cbn [grad_fuel]. rewrite !grad_body_ExpectationValue. reflexivity. Qed.

Lemma grad_fuel_Name (m : nat) (obj : grad_input) (v : string)
  (no_compile : bool) :
  grad_fuel (2 + m) obj (Name v) no_compile
  = grad_fuel 2 obj (Name v) no_compile.
Proof.
  change (2 + m) with (S (S m)). cbn [grad_fuel].
  apply grad_body_Name_ext. intros E.
  change (grad_body (grad_fuel m)) with (grad_fuel (S m)).
  change (grad_body (grad_fuel 0)) with (grad_fuel 1).
  apply grad_fuel_ExpectationValue.
Qed.

(** Three levels of calls are enough: more fuel does not change the
    result. *)
Lemma grad_fuel_enough (n : nat) (obj : grad_input) (variable : variable_arg)
  (no_compile : bool) :
  grad_fuel (3 + n) obj variable no_compile = grad obj variable no_compile.
Proof.
  unfold grad. change (3 + n) with (S (2 + n)). cbn [grad_fuel].
  apply grad_body_ext. intros o v nc.
  change (grad_body (grad_body (grad_fuel n))) with (grad_fuel (2 + n)).
  change (grad_body (grad_body (grad_fuel 0))) with (grad_fuel 2).
  apply grad_fuel_Name.
Qed.

(** [grad] satisfies the equation of its body. *)
Lemma grad_unfold (obj : grad_input) (variable : variable_arg)
  (no_compile : bool) :
  grad obj variable no_compile = grad_body grad obj variable no_compile.
Proof.
  rewrite <- (grad_fuel_enough 1). reflexivity.
Qed.

Lemma weight_chain_not_RecursionError (par variable : pyobj) :
  weight_chain par variable <> Raise RecursionError.
Proof.
  intros W.
  destruct (weight_chain_Raise par variable _ W)
    as [(_ & E)|[(_ & _ & E)|(_ & _ & T)]]; try discriminate E.
  unfold table_or_arithmetic, UnsupportedOperation in T.
  destruct T as [T | [T | [(msg & T) | [T | (pe & T)]]]]; discriminate T.
Qed.

Lemma gate_loop_not_RecursionError (unitary : QCircuit)
  (hamiltonian : hamiltonian) (variable : string) (gs : list gate) (i : nat)
  (dO : option objective) :
  gate_loop unitary hamiltonian variable gs i dO <> Raise RecursionError.
Proof.
  revert i dO. induction gs as [|g gs IH]; intros i dO; simpl; [discriminate|].
  destruct (is_parametrized g && negb (is_frozen g)); [|apply IH].
  destruct (angle g) as [a|].
  - rewrite shift_rule_eq.
    destruct (weight_chain (parameter g) (PStr variable)) eqn:W; simpl.
    + apply IH.
    + intros [= ->]. eapply weight_chain_not_RecursionError; eauto.
  - destruct (power g); discriminate.
Qed.

Lemma grad_expectationvalue_not_RecursionError (E : ExpectationValue)
  (variable : string) :
  grad_expectationvalue E variable <> Raise RecursionError.
Proof.
  unfold grad_expectationvalue.
  destruct (gate_loop _ _ _ _ _ _) eqn:L; simpl; [discriminate|].
  intros [= ->]. eapply gate_loop_not_RecursionError; eauto.
Qed.

Lemma objective_loop_not_RecursionError (self : grad_type)
  (evs : list ExpectationValue) (t : transformation) (v : string)
  (es : list ExpectationValue) (i : nat) (dO : option objective) :
  (forall E, self (OfExpectationValue E) (Name v) false <> Raise RecursionError) ->
  objective_loop self evs t v es i dO <> Raise RecursionError.
Proof.
  intros Hs. revert i dO. induction es as [|E es IH]; intros i dO; simpl;
    [discriminate|].
  destruct (negb _); [apply IH|].
  destruct (self _ _ _) eqn:S; simpl; [apply IH|].
  intros [= ->]. eapply Hs; eauto.
Qed.

(** The bound on the depth is never reached. *)
Lemma grad_never_out_of_fuel (obj : grad_input) (variable : variable_arg)
  (no_compile : bool) :
  grad obj variable no_compile <> Raise RecursionError.
Proof.
  assert (A : forall E v nc,
             grad_fuel 1 (OfExpectationValue E) (Name v) nc <> Raise RecursionError).
  { intros E v nc. cbn [grad_fuel]. rewrite grad_body_ExpectationValue.
    destruct nc; simpl; apply grad_expectationvalue_not_RecursionError. }
  assert (B : forall o v nc, grad_fuel 2 o (Name v) nc <> Raise RecursionError).
  { intros o v nc. cbn [grad_fuel]. destruct o as [E|o|o].
    - rewrite grad_body_ExpectationValue.
      destruct nc; simpl; apply grad_expectationvalue_not_RecursionError.
    - unfold grad_body. cbn [bind].
      destruct (if negb nc then _ else _); try discriminate.
      unfold grad_objective.
      destruct (objective_loop _ _ _ _ _ _ _) eqn:L; simpl; [discriminate|].
      intros [= ->]. revert L. apply objective_loop_not_RecursionError.
      intros E. apply A.
    - discriminate. }
  assert (C : forall o vs,
             mapM (fun v => grad_fuel 2 o (Name v) true) vs <> Raise RecursionError).
  { intros o vs M. apply mapM_Raise in M as (v & _ & M). revert M. apply B. }
  unfold grad. destruct variable as [|v|vs].
  - change (grad_fuel 3) with (grad_body (grad_fuel 2)). unfold grad_body.
    destruct (extract_variables _) as [vs|e] eqn:X; simpl.
    + destruct (mapM _ vs) eqn:M; simpl; [discriminate|].
      intros [= ->]. revert M. apply C.
    + intros [= ->]. unfold extract_variables in X.
      destruct (if negb no_compile then _ else _) as [?|?|o]; try discriminate.
      destruct (other_variables o); discriminate.
  - rewrite (grad_fuel_Name 1). apply B.
  - change (grad_fuel 3) with (grad_body (grad_fuel 2)). unfold grad_body.
    cbn [bind]. destruct (mapM _ vs) eqn:M; simpl; [discriminate|].
    intros [= ->]. revert M. apply C.
Qed.

End GradFacts.

Lemma In_enumerate_from {A} (k : nat) (l : list A) (i : nat) (a : A) :
  In (i, a) (enumerate_from k l) <-> (k <= i)%nat /\ l !! (i - k)%nat = Some a.
Proof.
  revert k. induction l as [|x l IH]; intros k; simpl.
  - split; [tauto|]. intros [_ L]. discriminate L.
  - rewrite IH. split.
    + intros [[= <- <-]|[Hk L]].
      * split; [lia|]. rewrite Nat.sub_diag. reflexivity.
      * split; [lia|]. replace (i - k)%nat with (S (i - S k)) by lia. exact L.
    + intros [Hk L]. destruct (Nat.eq_dec k i) as [<-|N].
      * rewrite Nat.sub_diag in L. injection L as <-. left. reflexivity.
      * right. split; [lia|].
        replace (i - k)%nat with (S (i - S k)) in L by lia. exact L.
Qed.

Lemma In_enumerate {A} (l : list A) (i : nat) (a : A) :
  In (i, a) (enumerate l) <-> l !! i = Some a.
Proof.
  unfold enumerate. rewrite In_enumerate_from, Nat.sub_0_r.
  split; [tauto|]. intros L. split; [lia|exact L].
Qed.

Lemma existsb_eqb_In (v : string) (l : list string) :
  existsb (String.eqb v) l = true <-> In v l.
Proof.
  rewrite existsb_exists. split.
  - intros (x & I & E). apply String.eqb_eq in E. subst. exact I.
  - intros I. exists v. split; [exact I|apply String.eqb_refl].
Qed.

Section ObjectiveFacts.

Context {FL : PyFloat} {TQ : Collaborators}.

Lemma fold_accumulate_Some (ts : list objective) (d : objective) :
  fold_left accumulate ts (Some d) = Some (fold_left Add ts d).
Proof.
  revert d. induction ts as [|t ts IH]; intros d; simpl; [reflexivity|].
  apply IH.
Qed.

Lemma value_of_fold_accumulate (ts : list objective) :
  value_of (fold_left accumulate ts None) = sum_objectives ts.
Proof.
  destruct ts as [|t ts]; simpl; [reflexivity|].
  rewrite fold_accumulate_Some. reflexivity.
Qed.

(** The loop over the expectation values maps the qualifying ones to
    their terms and accumulates the terms in order. *)
Lemma objective_loop_spec (self : grad_type) (obj : Objective) (v : string)
  (es : list ExpectationValue) (i : nat) (dO : option objective) :
  objective_loop self (expectationvalues obj) (transformation_of obj) v es i dO =
  let* terms :=
    mapM (objective_term self obj v)
         (List.filter
            (fun iE => existsb (String.eqb v) (extract_variables_E (snd iE)))
            (enumerate_from i es)) in
  OK (fold_left accumulate terms dO).
Proof.
  revert i dO. induction es as [|E es IH]; intros i dO; simpl; [reflexivity|].
  destruct (existsb (String.eqb v) (extract_variables_E E)); simpl.
  - destruct (self (OfExpectationValue E) (Name v) false) as [inner|e]; simpl;
      [|reflexivity].
    rewrite IH. destruct (mapM _ _); reflexivity.
  - apply IH.
Qed.

Lemma grad_objective_spec (self : grad_type) (obj : Objective) (v : string) :
  grad_objective self obj v =
  let* terms :=
    mapM (objective_term self obj v) (qualifying v (expectationvalues obj)) in
  OK (sum_objectives terms).
Proof.
  unfold grad_objective, qualifying, enumerate. rewrite objective_loop_spec.
  destruct (mapM _ _); simpl; [|reflexivity].
  rewrite value_of_fold_accumulate. reflexivity.
Qed.

(** The recursive call of the fan-out, with [no_compile=True] on the
    compiled object, is the call on the object itself. *)
Lemma grad_compiled (obj : grad_input) (v : string) :
  grad (compiled_of obj false) (Name v) true = grad obj (Name v) false.
Proof.
  rewrite !grad_unfold. destruct obj; reflexivity.
Qed.

End ObjectiveFacts.

(** C4. The gradient of an Objective passes over the expectation values
    whose free variables do not include the variable; for each other
    position i it takes the partial derivative of the transformation in
    its argument i, makes it an Objective over the same list of
    expectation values, multiplies it by the gradient of E_i, and adds
    these products up in order; with no qualifying expectation value the
    result is [None]. *)
Theorem grad_objective_chain_rule
  {FL : PyFloat} {TQ : Collaborators} (obj : Objective) (variable : string) :
  let evs := expectationvalues obj in
  let outer (i : nat) :=
    Leaf {| expectationvalues := evs;
            transformation_of := jax_jit_grad (transformation_of obj) i |} in
  let term (iE : nat * ExpectationValue) :=
    let* inner := grad (OfExpectationValue (snd iE)) (Name variable) false in
    OK (Mul (outer (fst iE)) inner) in
  grad (OfObjective obj) (Name variable) true =
    (let* terms := mapM term (qualifying variable evs) in
     OK (match terms with
         | [] => VNone
         | t :: ts => VObjective (fold_left Add ts t)
         end))
  /\ (forall iE, In iE (qualifying variable evs) <->
                 evs !! fst iE = Some (snd iE)
                 /\ In variable (extract_variables_E (snd iE)))
  /\ (forall E,
         grad (OfExpectationValue E) (Name variable) false =
         grad_expectationvalue
           (on_expectationvalue compile_controlled_rotation
              (on_expectationvalue compile_trotterized_gate E))
           variable)
  /\ (qualifying variable evs = [] ->
      grad (OfObjective obj) (Name variable) true = OK VNone).
Proof.
  cbv zeta.
  assert (G : grad (OfObjective obj) (Name variable) true
              = let* terms := mapM (objective_term grad obj variable)
                                   (qualifying variable (expectationvalues obj)) in
                OK (sum_objectives terms)).
  { rewrite grad_unfold. cbn [grad_body negb bind]. apply grad_objective_spec. }
  split; [|split; [|split]].
  - rewrite G.
    rewrite (mapM_ext (objective_term grad obj variable)
               (fun iE => let* inner := grad (OfExpectationValue (snd iE))
                                             (Name variable) false in
                          OK (Mul (Leaf {| expectationvalues := expectationvalues obj;
                                           transformation_of :=
                                             jax_jit_grad (transformation_of obj) (fst iE) |})
                                  inner))).
    + reflexivity.
    + intros [i E] _. reflexivity.
  - intros [i E]. unfold qualifying. rewrite filter_In. simpl.
    rewrite In_enumerate, existsb_eqb_In. reflexivity.
  - intros E. rewrite grad_unfold. reflexivity.
  - intros Q. rewrite G, Q. reflexivity.
Qed.

(** Without a variable: one call per free variable name of the compiled
    object, the results in a list in the order of the names. *)
Lemma grad_NoVariable_spec
  {FL : PyFloat} {TQ : Collaborators} (obj : grad_input) (vs : list string) :
  extract_variables (compiled_of obj false) = OK vs ->
  grad obj NoVariable false =
    (let* l := mapM (fun v => grad (compiled_of obj false) (Name v) true) vs in
     OK (VList l))
  /\ grad obj NoVariable false =
       (let* l := mapM (fun v => grad obj (Name v) false) vs in OK (VList l))
  /\ forall l, grad obj NoVariable false = OK (VList l) ->
       length l = length vs
       /\ forall i v, vs !! i = Some v ->
            exists entry, l !! i = Some entry
                          /\ grad obj (Name v) false = OK entry.
Proof.
  intros X.
  assert (G1 : grad obj NoVariable false =
               let* l := mapM (fun v => grad (compiled_of obj false) (Name v) true) vs in
               OK (VList l)).
  { rewrite grad_unfold. unfold grad_body.
    change (if negb false then _ else obj) with (compiled_of obj false).
    rewrite X. reflexivity. }
  assert (G2 : grad obj NoVariable false =
               let* l := mapM (fun v => grad obj (Name v) false) vs in OK (VList l)).
  { rewrite G1.
    rewrite (mapM_ext _ (fun v => grad obj (Name v) false)); [reflexivity|].
    intros v _. apply grad_compiled. }
  split; [exact G1|split; [exact G2|]].
  intros l Hl. rewrite G2 in Hl. clear G1 G2.
  destruct (mapM (fun v => grad obj (Name v) false) vs) as [l'|] eqn:M;
    simpl in Hl; [|discriminate].
  injection Hl as <-. split.
  - eapply mapM_length; eauto.
  - intros i v Hv. eapply (mapM_lookup _ _ _ _ _ M Hv).
Qed.

(** C6, at the failing input.  Called without a variable, [grad] takes the
    free variable names of the object the two passes compile, calls itself
    once per name on the compiled object with [no_compile=True], and
    returns the results as a list in the order of the names, the entry of
    a name being [grad(obj, variable=name)]; the names are no part of the
    result.  For Rx(theta) Ry(phi) the result is the two-element list of
    the gradients in theta and in phi.  The circuits H Rx(theta) and
    H Rx(phi) with Rx frozen, whose free variables are theta and phi,
    return the same one-element list [[None]]: nothing in the result is
    keyed by a variable name. *)
Theorem grad_without_variable_returns_a_bare_list :
  (forall (FL : PyFloat) (TQ : Collaborators) (E : ExpectationValue),
      let compiled :=
        on_expectationvalue compile_controlled_rotation
          (on_expectationvalue compile_trotterized_gate E) in
      grad (OfExpectationValue E) NoVariable false =
        (let* l := mapM (fun v => grad (OfExpectationValue compiled) (Name v) true)
                        (extract_variables_E compiled) in
         OK (VList l))
      /\ grad (OfExpectationValue E) NoVariable false =
           (let* l := mapM (fun v => grad (OfExpectationValue E) (Name v) false)
                           (extract_variables_E compiled) in
            OK (VList l))
      /\ grad (OfExpectationValue E) NoVariable true =
           (let* l := mapM (fun v => grad (OfExpectationValue E) (Name v) true)
                           (extract_variables_E E) in
            OK (VList l)))
  /\ (forall (FL : PyFloat) (TQ : Collaborators) (obj : Objective),
         let compiled :=
           on_objective compile_controlled_rotation
             (on_objective compile_trotterized_gate obj) in
         grad (OfObjective obj) NoVariable false =
           (let* l := mapM (fun v => grad (OfObjective compiled) (Name v) true)
                           (extract_variables_O compiled) in
            OK (VList l))
         /\ grad (OfObjective obj) NoVariable false =
              (let* l := mapM (fun v => grad (OfObjective obj) (Name v) false)
                              (extract_variables_O compiled) in
               OK (VList l)))
  /\ (exists d_theta d_phi,
         @extract_variables RealFloat ExampleTequila
           (OfExpectationValue E_two_rotations) = OK ["theta"; "phi"]
         /\ @grad RealFloat ExampleTequila (OfExpectationValue E_two_rotations)
              NoVariable false = OK (VList [d_theta; d_phi])
         /\ @grad RealFloat ExampleTequila (OfExpectationValue E_two_rotations)
              (Name "theta") false = OK d_theta
         /\ @grad RealFloat ExampleTequila (OfExpectationValue E_two_rotations)
              (Name "phi") false = OK d_phi)
  /\ @extract_variables RealFloat ExampleTequila (OfExpectationValue E_frozen)
     = OK ["theta"]
  /\ @extract_variables RealFloat ExampleTequila (OfExpectationValue E_frozen_phi)
     = OK ["phi"]
  /\ @grad RealFloat ExampleTequila (OfExpectationValue E_frozen) NoVariable false
     = OK (VList [VNone])
  /\ @grad RealFloat ExampleTequila (OfExpectationValue E_frozen_phi)
       NoVariable false
     = OK (VList [VNone]).
Proof.
  split; [|split; [|split]].
  - intros FL TQ E compiled.
    destruct (grad_NoVariable_spec (OfExpectationValue E)
                (extract_variables_E compiled) eq_refl) as (G1 & G2 & _).
    split; [exact G1|]. split; [exact G2|].
    rewrite grad_unfold. reflexivity.
  - intros FL TQ obj compiled.
    destruct (grad_NoVariable_spec (OfObjective obj)
                (extract_variables_O compiled) eq_refl) as (G1 & G2 & _).
    split; [exact G1|exact G2].
  - do 2 eexists. repeat split; reflexivity.
  - repeat split; reflexivity.
Qed.

(** C9 (amended). The gradient of an expectation value whose circuit has
    a parametrized, non-frozen power gate (a power and no angle) raises
    NotImplemented when the loop gets past every gate before it; [grad]
    with one variable name on a value that is neither an Objective nor an
    ExpectationValue raises UnsupportedType; an exception raised for an
    expectation value of an Objective, or for one of the names, is the
    outcome of the enclosing call, which returns no partial result. *)
Theorem grad_errors
  {FL : PyFloat} {TQ : Collaborators} (variable : string) :
  (forall (E : ExpectationValue) (i : nat) (g : gate),
      gates (U E) !! i = Some g ->
      is_parametrized g = true -> is_frozen g = false ->
      angle g = None -> power g <> None ->
      Forall (gets_past variable) (take i (gates (U E))) ->
      grad (OfExpectationValue E) (Name variable) true = Raise NotImplemented)
  /\ (forall (o : other) (no_compile : bool),
         grad (OfOther o) (Name variable) no_compile = Raise UnsupportedType)
  /\ (forall (o : other) (names : list string) (no_compile : bool),
         grad (OfOther o) (Names (variable :: names)) no_compile
         = Raise UnsupportedType)
  /\ (forall (obj : Objective) (pre post : list (nat * ExpectationValue))
             (i : nat) (E : ExpectationValue) (e : exn),
         qualifying variable (expectationvalues obj) = pre ++ (i, E) :: post ->
         Forall (fun jE => exists inner,
                     grad (OfExpectationValue (snd jE)) (Name variable) false
                     = OK inner) pre ->
         grad (OfExpectationValue E) (Name variable) false = Raise e ->
         grad (OfObjective obj) (Name variable) true = Raise e)
  /\ (forall (obj : grad_input) (pre post : list string) (v : string) (e : exn),
         Forall (fun u => exists r, grad obj (Name u) true = OK r) pre ->
         grad obj (Name v) true = Raise e ->
         grad obj (Names (pre ++ v :: post)) true = Raise e).
Proof.
  split; [|split; [|split; [|split]]].
  - intros E i g Hi Hp Hf Ha Hpow Hpre.
    rewrite grad_unfold. cbn [grad_body negb bind].
    unfold grad_expectationvalue.
    rewrite (gate_loop_power _ _ _ _ i g); auto.
    unfold differentiable. rewrite Hp, Hf. reflexivity.
  - intros o nc. rewrite grad_unfold. destruct nc; reflexivity.
  - intros o names nc. rewrite grad_unfold. cbn [grad_body bind mapM].
    rewrite grad_unfold. destruct nc; reflexivity.
  - intros obj pre post i E e Q Hpre HE.
    rewrite grad_unfold. cbn [grad_body negb bind].
    rewrite grad_objective_spec, Q.
    rewrite (mapM_first_Raise _ pre post (i, E) e); [reflexivity| |].
    + eapply Forall_impl; [exact Hpre|].
      intros [j E'] (inner & Hin). unfold objective_term. simpl in Hin.
      rewrite Hin. simpl. eauto.
    + unfold objective_term. rewrite HE. reflexivity.
  - intros obj pre post v e Hpre Hv.
    rewrite grad_unfold. cbn [grad_body negb bind].
    rewrite (mapM_first_Raise _ pre post v e); [reflexivity| |exact Hv].
    exact Hpre.
Qed.

(** * The theorems at concrete inputs *)


(** C2 at theta * phi, with theta = 2.0 and phi = 3.0: the derivative in
    theta is the table entry of mul at position 0, applied to the two
    values, times the derivative 1.0 of theta, plus 0.0 for phi. *)
Lemma weight_chain_total_derivative_witness :
  @weight_chain RealFloat ExampleTequila
    (PTransform Mul_ [theta; phi]) (PStr "theta")
  = OK (3 * 1 + (0 + 0))%R.
Proof.
  rewrite (proj2 (proj2 (proj2 (@weight_chain_total_derivative RealFloat
                                  ExampleTequila (PStr "theta") "theta" eq_refl)))
             Mul_ theta phi 2%R 3%R eq_refl eq_refl eq_refl).
  reflexivity.
Defined.

(** C3 at mul, position 0, where integer arguments are converted to
    floats; at pow, position 0, for x = 2.0 and y = 3.0, the three
    operations of which are exact; and for the power function at 2. *)
Lemma tgrad_closed_forms_witness :
  (exists fn, @tgrad RealFloat Mul_ 0 = OK (Some fn)
              /\ fn (NInt 2) (NInt 3) = fn (NFloat 2%R) (NFloat 3%R))
  /\ @partial RealFloat Pow_ 0 (NFloat 2%R) (NFloat 3%R) = OK (PFloat 12%R)
  /\ derivable_pt_lim (fun t => Rpower t 3) 2 (3 * Rpower 2 (3 - 1))%R.
Proof.
  split; [|split].
  - eexists. split; [reflexivity|].
    exact (proj1 (proj2 tgrad_closed_forms) RealFloat Mul_ 0%Z _ eq_refl
             (NInt 2) (NInt 3)).
  - apply (proj2 (proj2 (proj1 (proj2 (proj2 tgrad_closed_forms)) RealFloat))).
    + simpl. lra.
    + simpl. rewrite R_pow_positive by lra. rewrite Rpower_2_2. reflexivity.
    + simpl. lra.
  - apply (proj1 (proj2 (proj2 (proj2 tgrad_closed_forms)) operator.pow 2%R 3%R
                   ltac:(simpl; lra))).
Defined.

(** C4 at an Objective none of whose expectation values depends on psi. *)
Lemma grad_objective_chain_rule_witness :
  @grad RealFloat ExampleTequila (OfObjective O_two) (Name "psi") true
  = OK VNone.
Proof.
  apply (proj2 (proj2 (proj2 (@grad_objective_chain_rule RealFloat
                                ExampleTequila O_two "psi")))).
  reflexivity.
Defined.

(** C5 at H Rx(theta) with Rx frozen. *)
Lemma grad_expectationvalue_no_differentiable_gate_witness :
  @grad_expectationvalue RealFloat ExampleTequila E_frozen "theta" = OK VNone.
Proof.
  apply (proj1 (@grad_expectationvalue_no_differentiable_gate RealFloat
                  ExampleTequila E_frozen "theta"
                  ltac:(constructor; [left; reflexivity|
                        constructor; [right; reflexivity|constructor]]))).
Defined.

(** C9 at Rx(theta) followed by a power gate. *)
Lemma grad_errors_witness :
  @grad RealFloat ExampleTequila (OfExpectationValue E_power) (Name "theta") true
  = Raise NotImplemented.
Proof.
  apply (proj1 (@grad_errors RealFloat ExampleTequila "theta")
           E_power 1%nat (power_gate "Xpow" phi));
    try reflexivity.
  - discriminate.
  - constructor; [|constructor].
    right. exists theta, 1%R. split; reflexivity.
Defined.

(** C9, as stated, fails: the circuit below contains a parametrized,
    non-frozen power gate, and its gradient raises the TequilaException of
    the unsupported gate before it, not NotImplemented; and [grad] on an
    int with an empty collection of names returns the empty list. *)
Lemma power_gate_circuit_raises_another_error :
  In (power_gate "Xpow" phi) (gates (U E_other_then_power))
  /\ @grad RealFloat ExampleTequila (OfExpectationValue E_other_then_power)
       (Name "theta") true
     = Raise (TequilaException
                "Automatic differentiation is implemented only for Rotational Gates")
  /\ @grad RealFloat ExampleTequila (OfExpectationValue E_other_then_power)
       (Name "theta") true
     <> Raise NotImplemented
  /\ @grad RealFloat ExampleTequila (OfOther an_int) (Names []) true
     = OK (VList []).
Proof.
  split; [right; left; reflexivity|].
  split; [reflexivity|].
  split; [discriminate|reflexivity].
Qed.

(** ** The chain rule returns on well-formed expressions *)

Section ChainReturns.

Context {FL : PyFloat} {TQ : Collaborators}.

Lemma complex_real_has_value (a : pyobj) :
  has_value a = true -> exists x, complex_real a = OK x.
Proof.
  unfold has_value, complex_real. destruct (real_value a); [eauto|discriminate].
Qed.

Lemma chain_term_returns (f : pyfunc) (a b x : pyobj) (v : string) (i : nat) :
  smooth_op (op f) = true -> has_value a = true -> has_value b = true ->
  (i = 0 \/ i = 1)%nat ->
  (has_variable x v = true -> exists w, weight_chain x (PStr v) = OK w) ->
  exists t, chain_term f [a; b] v (i, x) = OK t.
Proof.
  intros Hop Ha Hb Hi Hx. unfold chain_term.
  destruct (has_variable x v); [|eauto]. cbn [mapM].
  destruct (complex_real_has_value a Ha) as (xa & ->).
  destruct (complex_real_has_value b Hb) as (xb & ->).
  destruct (Hx eq_refl) as (w & ->).
  unfold tgrad.
  destruct Hi as [-> | ->]; destruct (op f); try discriminate; simpl; eauto.
Qed.

(** On a well-formed Variable or Transform, for a target that is a
    Variable or a str, [__weight_chain] returns a float. *)
Lemma weight_chain_returns (par : pyobj) :
  is_node par = true -> well_formed par = true ->
  forall (variable : pyobj) (v : string),
    assign_var variable = Some v ->
    exists c, weight_chain par variable = OK c.
Proof.
  induction par as [name|f args IH|s|n|] using pyobj_nested_ind;
    intros N W variable v Hv; try discriminate.
  - rewrite weight_chain_eq, Hv. simpl. destruct (String.eqb name v); eauto.
  - rewrite (weight_chain_Transform f args variable v Hv).
    destruct (has_variable (PTransform f args) v); [|eauto].
    destruct args as [|a [|b [|c args]]]; try discriminate.
    cbn [well_formed] in W.
    apply andb_prop in W as [W Wb]. apply andb_prop in W as [W Wa].
    apply andb_prop in W as [W Hb]. apply andb_prop in W as [Hop Ha].
    apply Forall_cons in IH as [IHa IH]. apply Forall_cons in IH as [IHb _].
    assert (Ta : exists t, chain_term f [a; b] v (0%nat, a) = OK t).
    { apply chain_term_returns; auto. intros Hva.
      apply (IHa (has_variable_is_node _ _ Hva) Wa (PStr v) v). reflexivity. }
    assert (Tb : exists t, chain_term f [a; b] v (1%nat, b) = OK t).
    { apply chain_term_returns; auto. intros Hvb.
      apply (IHb (has_variable_is_node _ _ Hvb) Wb (PStr v) v). reflexivity. }
    destruct Ta as (ta & Ta). destruct Tb as (tb & Tb).
    unfold chain_rule_sum, enumerate. cbn [enumerate_from mapM].
    rewrite Ta, Tb. simpl. eauto.
Qed.

End ChainReturns.

(** * Examples *)

(** d(2 * theta)/d theta = 2.0, whatever theta is bound to. *)
Example chain_rule_scaled :
  exists c, @weight_chain RealFloat ExampleTequila
              (PTransform Mul_ [PNumber (NInt 2); theta]) (PStr "theta") = OK c
            /\ c = 2%R.
Proof. eexists. split; [reflexivity|]. simpl. lra. Qed.

(** d(theta + phi)/d theta = 1.0 and d(theta + phi)/d psi = 0.0. *)
Example chain_rule_sum_of_variables :
  (exists c, @weight_chain RealFloat ExampleTequila
               (PTransform Add_ [theta; phi]) (PStr "theta") = OK c
             /\ c = 1%R)
  /\ @weight_chain RealFloat ExampleTequila
       (PTransform Add_ [theta; phi]) (PStr "psi") = OK 0%R.
Proof.
  split.
  - eexists. split; [reflexivity|]. simpl. lra.
  - rewrite weight_chain_Transform with (v := "psi") by reflexivity.
    reflexivity.
Qed.

(** d(theta ** phi)/d theta at theta = 2, phi = 3 is 12.0; the Variable
    given as target works like its name. *)
Example chain_rule_power :
  exists c, @weight_chain RealFloat ExampleTequila
              (PTransform Pow_ [theta; phi]) (PVariable "theta") = OK c
            /\ c = 12%R.
Proof.
  rewrite weight_chain_Transform with (v := "theta") by reflexivity.
  unfold chain_rule_sum. simpl. unfold py_pow. simpl.
  unfold bindings. simpl. rewrite R_pow_positive by lra.
  eexists. split; [reflexivity|]. simpl.
  replace (3 - 1)%R with (1 + 1)%R by lra.
  rewrite Rpower_plus, Rpower_1 by lra. lra.
Qed.

(** An unsupported operator is harmless below a Transform that does not
    contain the target: the result is 0.0 and nothing is looked up. *)
Example chain_rule_no_recursion :
  @weight_chain RealFloat ExampleTequila
    (PTransform Mod_ [PTransform Mod_ [theta; phi]; PStr "x"]) (PStr "psi")
  = OK 0%R.
Proof.
  rewrite weight_chain_Transform with (v := "psi") by reflexivity.
  reflexivity.
Qed.

(** The parameter-shift rule on the single gate Rx(theta):
    0.5 * EV(theta + pi/2) - 0.5 * EV(theta - pi/2). *)
Example single_rotation_gradient :
  let shifted (a : @pyobj RealFloat) : @gate RealFloat :=
    {| gate_name := "Rx"; is_parametrized := true; frozen := true;
       parameter := theta; angle := Some a; power := None |} in
  let plus := PTransform Add_ [theta; PNumber (NFloat (PI / 2)%R)] in
  let minus := PTransform Sub_ [theta; PNumber (NFloat (PI / 2)%R)] in
  @grad RealFloat ExampleTequila
    (OfExpectationValue (expectation [rotation "Rx" theta false]))
    (Name "theta") false
  = OK (VObjective
          (Add (RMul (1 / 2 * 1)%R
                  (Leaf {| expectationvalues := [expectation [shifted plus]];
                           transformation_of := default_transformation |}))
               (RMul (- (1 / 2) * 1)%R
                  (Leaf {| expectationvalues := [expectation [shifted minus]];
                           transformation_of := default_transformation |})))).
Proof. reflexivity. Qed.

(** Rx(theta) Ry(phi) in phi: the term of Rx has the weights 0.5 * 0.0 and
    -0.5 * 0.0 and is part of the sum. *)
Example zero_weight_term_is_kept :
  @grad RealFloat ExampleTequila (OfExpectationValue E_two_rotations)
    (Name "phi") true
  = OK (VObjective
          (Add (@contribution RealFloat ExampleTequila (U E_two_rotations) Z0 0
                  (rotation "Rx" theta false) theta 0%R)
               (@contribution RealFloat ExampleTequila (U E_two_rotations) Z0 1
                  (rotation "Ry" phi false) phi 1%R))).
Proof.
  rewrite grad_unfold. cbn [grad_body negb bind].
  unfold grad_expectationvalue, E_two_rotations, expectation. cbn [U H gates].
  rewrite (gate_loop_angle _ _ _ _ theta) by reflexivity.
  simpl (weight_chain _ _). cbn [bind].
  rewrite (gate_loop_angle _ _ _ _ phi) by reflexivity.
  simpl (weight_chain _ _). cbn [bind].
  reflexivity.
Qed.

(** The Objective f(E0(theta), E1(phi)) in theta: only E0 qualifies, the
    outer Objective is the partial derivative of f in its argument 0 over
    both expectation values. *)
Example objective_gradient :
  exists inner,
    @grad RealFloat ExampleTequila
      (OfExpectationValue (expectation [rotation "Rx" theta false]))
      (Name "theta") false = OK inner
    /\ @grad RealFloat ExampleTequila (OfObjective O_two) (Name "theta") false
       = OK (VObjective
               (Mul (Leaf {| expectationvalues := expectationvalues O_two;
                             transformation_of := jax_jit_grad (callable "f") 0 |})
                    inner)).
Proof. eexists. split; reflexivity. Qed.

(** Without a variable: one entry per free variable, in order; the entry
    of phi is the one of [zero_weight_term_is_kept]. *)
Example gradient_in_all_variables :
  exists d_theta d_phi,
    @grad RealFloat ExampleTequila (OfExpectationValue E_two_rotations)
      NoVariable false = OK (VList [d_theta; d_phi])
    /\ @grad RealFloat ExampleTequila (OfExpectationValue E_two_rotations)
         (Name "theta") false = OK d_theta
    /\ @grad RealFloat ExampleTequila (OfExpectationValue E_two_rotations)
         (Name "phi") false = OK d_phi.
Proof. do 2 eexists. repeat split; reflexivity. Qed.

(** A value without [extract_variables], and no variable given. *)
Example gradient_of_an_int :
  @grad RealFloat ExampleTequila (OfOther an_int) NoVariable false
  = Raise (AttributeError "extract_variables")
  /\ @grad RealFloat ExampleTequila (OfOther a_circuit) NoVariable false
     = Raise UnsupportedType.
Proof. split; reflexivity. Qed.

(** * The loop over the gates as a whole *)

Section GateLoopWhole.

Context {FL : PyFloat} {TQ : Collaborators}.

(** The loop maps the differentiable gates, in order, to their terms and
    accumulates the terms; the first exception ends it. *)
Lemma gate_loop_spec (unitary : QCircuit) (hamiltonian : hamiltonian)
  (variable : string) (gs : list gate) (i : nat) (dO : option objective) :
  gate_loop unitary hamiltonian variable gs i dO =
  let* terms :=
    mapM (gate_term unitary hamiltonian variable)
         (List.filter (fun ig => differentiable (snd ig)) (enumerate_from i gs)) in
  OK (fold_left accumulate terms dO).
Proof.
  revert i dO. induction gs as [|g gs IH]; intros i dO; [reflexivity|].
  cbn [gate_loop enumerate_from List.filter snd].
  change (is_parametrized g && negb (is_frozen g)) with (differentiable g).
  destruct (differentiable g); [|apply IH].
  cbn [mapM gate_term]. destruct (angle g) as [a|].
  - rewrite shift_rule_eq.
    destruct (weight_chain (parameter g) (PStr variable)) as [c|e];
      cbn [bind]; [|reflexivity].
    rewrite IH. destruct (mapM _ _); reflexivity.
  - destruct (power g); reflexivity.
Qed.

Lemma filter_nil_Forall {A} (p : A -> bool) (l : list A) :
  List.filter p l = [] -> Forall (fun x => p x = false) l.
Proof.
  induction l as [|x l IH]; simpl; [constructor|].
  destruct (p x) eqn:Px; [discriminate|]. intros F. constructor; auto.
Qed.

Lemma Forall_enumerate_from {A} (P : A -> Prop) (l : list A) (i : nat) :
  Forall (fun ia => P (snd ia)) (enumerate_from i l) -> Forall P l.
Proof.
  revert i. induction l as [|x l IH]; intros i; simpl; [constructor|].
  intros F. apply Forall_cons in F as [Px F]. constructor; eauto.
Qed.

Lemma sum_objectives_None (ts : list objective) :
  sum_objectives ts = VNone -> ts = [].
Proof. destruct ts; [reflexivity|discriminate]. Qed.

Lemma circuits_of_fold_Add (ts : list objective) (t : objective) :
  circuits_of (fold_left Add ts t) = circuits_of t ++ flat_map circuits_of ts.
Proof.
  revert t. induction ts as [|t' ts IH]; intros t; simpl.
  - rewrite app_nil_r. reflexivity.
  - rewrite IH. simpl. rewrite <- app_assoc. reflexivity.
Qed.

Lemma circuits_of_sum (ts : list objective) :
  circuits_of_value (sum_objectives ts) = flat_map circuits_of ts.
Proof.
  destruct ts as [|t ts]; [reflexivity|]. simpl. apply circuits_of_fold_Add.
Qed.

Lemma gate_term_two_circuits (unitary : QCircuit) (hamiltonian : hamiltonian)
  (variable : string) (ig : nat * gate) (t : objective) :
  gate_term unitary hamiltonian variable ig = OK t ->
  length (circuits_of t) = 2%nat.
Proof.
  destruct ig as [i g]. unfold gate_term.
  destruct (angle g) as [a|]; [|destruct (power g); discriminate].
  destruct (weight_chain _ _); simpl; [|discriminate].
  intros [= <-]. reflexivity.
Qed.

Lemma mapM_two_circuits (unitary : QCircuit) (hamiltonian : hamiltonian)
  (variable : string) (l : list (nat * gate)) (ts : list objective) :
  mapM (gate_term unitary hamiltonian variable) l = OK ts ->
  length (flat_map circuits_of ts) = (2 * length l)%nat.
Proof.
  revert ts. induction l as [|ig l IH]; intros ts; simpl.
  - intros [= <-]. reflexivity.
  - destruct (gate_term _ _ _ ig) as [t|] eqn:T; simpl; [|discriminate].
    destruct (mapM _ l) as [ts'|]; simpl; [|discriminate].
    intros [= <-]. simpl. rewrite length_app, (IH ts' eq_refl).
    rewrite (gate_term_two_circuits _ _ _ _ _ T). lia.
Qed.

End GateLoopWhole.

(** X1. The gradient of an expectation value is the sum, in the order of
    the circuit, of the terms of its differentiable gates: each gate that
    is parametrized and not frozen gives its parameter-shift contribution
    when it has an angle, and ends the call with NotImplemented (a power
    and no angle) or with the exception of the unsupported gate kinds
    otherwise; an angle takes precedence over a power. *)
Theorem grad_expectationvalue_is_sum_of_gate_terms
  {FL : PyFloat} {TQ : Collaborators} (E : ExpectationValue) (variable : string) :
  grad_expectationvalue E variable =
  let* terms :=
    mapM (fun ig : nat * gate =>
            match angle (snd ig) with
            | Some a =>
                let* c := weight_chain (parameter (snd ig)) (PStr variable) in
                OK (contribution (U E) (H E) (fst ig) (snd ig) a c)
            | None =>
                match power (snd ig) with
                | Some _ => Raise NotImplemented
                | None => Raise UnsupportedGateKind
                end
            end)
         (List.filter (fun ig => is_parametrized (snd ig) && negb (is_frozen (snd ig)))
                      (enumerate (gates (U E)))) in
  OK (match terms with
      | [] => VNone
      | t :: ts => VObjective (fold_left Add ts t)
      end).
Proof.
  unfold grad_expectationvalue. rewrite gate_loop_spec.
  unfold enumerate, differentiable.
  match goal with
  | |- _ = bind (mapM ?h _) _ =>
      rewrite (mapM_ext (gate_term (U E) (H E) variable) h)
        by (intros [i g] _; reflexivity)
  end.
  destruct (mapM _ _) as [terms|]; simpl; [|reflexivity].
  rewrite value_of_fold_accumulate. reflexivity.
Qed.

(** X2. The gradient of an expectation value is [None] exactly when no
    gate of the circuit is differentiable: as soon as one gate is
    parametrized and not frozen, the call returns an Objective or raises,
    also for a variable the circuit does not depend on. *)
Theorem grad_expectationvalue_None_iff
  {FL : PyFloat} {TQ : Collaborators} (E : ExpectationValue) (variable : string) :
  grad_expectationvalue E variable = OK VNone
  <-> Forall (fun g => is_parametrized g && negb (is_frozen g) = false)
             (gates (U E)).
Proof.
  split.
  - unfold grad_expectationvalue. rewrite gate_loop_spec.
    destruct (mapM _ _) as [terms|] eqn:M; simpl; [|discriminate].
    rewrite value_of_fold_accumulate. intros [= S].
    apply sum_objectives_None in S. subst terms.
    apply mapM_length in M. symmetry in M. apply length_zero_iff_nil in M.
    apply filter_nil_Forall in M.
    apply (Forall_enumerate_from
             (fun g => is_parametrized g && negb (is_frozen g) = false) _ 0%nat).
    exact M.
  - intros F. unfold grad_expectationvalue.
    rewrite gate_loop_none_differentiable; [reflexivity|exact F].
Qed.

(** X3. When the gradient of an expectation value is returned, it holds
    two circuits for each differentiable gate of the circuit, whatever the
    chain-rule coefficients are. *)
Theorem grad_expectationvalue_two_circuits_per_gate
  {FL : PyFloat} {TQ : Collaborators} (E : ExpectationValue) (variable : string)
  (r : pyvalue) :
  grad_expectationvalue E variable = OK r ->
  length (circuits_of_value r) = (2 * length (differentiable_gates (U E)))%nat.
Proof.
  unfold grad_expectationvalue. rewrite gate_loop_spec.
  destruct (mapM _ _) as [terms|] eqn:M; simpl; [|discriminate].
  rewrite value_of_fold_accumulate. intros [= <-].
  rewrite circuits_of_sum. apply (mapM_two_circuits _ _ _ _ _ M).
Qed.



(** X5. An expectation value of an Objective that names the variable among
    its free variables while none of its gates is differentiable (all of
    them frozen, say) still qualifies: its gradient is [None] and the
    Objective of the partial derivative is multiplied by [None]. *)
Theorem grad_objective_multiplies_by_None
  {FL : PyFloat} {TQ : Collaborators} (obj : Objective) (E : ExpectationValue)
  (variable : string) :
  expectationvalues obj = [E] ->
  In variable (extract_variables_E E) ->
  Forall (fun g => is_parametrized g = false \/ is_frozen g = true)
         (gates (U (on_expectationvalue compile_controlled_rotation
                      (on_expectationvalue compile_trotterized_gate E)))) ->
  grad (OfObjective obj) (Name variable) true =
  OK (VObjective
        (Mul (Leaf {| expectationvalues := [E];
                      transformation_of := jax_jit_grad (transformation_of obj) 0 |})
             VNone)).
Proof.
  intros HE Hin Hfrozen.
  rewrite grad_unfold. cbn [grad_body negb bind].
  rewrite grad_objective_spec. unfold qualifying, enumerate. rewrite HE.
  cbn [enumerate_from List.filter snd].
  rewrite (proj2 (existsb_eqb_In variable _) Hin).
  cbn [mapM objective_term].
  rewrite grad_unfold. cbn [grad_body negb bind run].
  unfold grad_expectationvalue.
  rewrite gate_loop_none_differentiable.
  - cbn [bind value_of sum_objectives fold_left]. rewrite HE. reflexivity.
  - eapply Forall_impl; [exact Hfrozen|]. intros g. apply not_differentiable.
Qed.

(** X6. The gradient of an Objective is [None] exactly when the variable
    is among the free variables of none of its expectation values: with one
    that qualifies the call returns an Objective or raises. *)
Theorem grad_objective_None_iff
  {FL : PyFloat} {TQ : Collaborators} (obj : Objective) (variable : string) :
  grad (OfObjective obj) (Name variable) true = OK VNone
  <-> Forall (fun E => ~ In variable (extract_variables_E E))
             (expectationvalues obj).
Proof.
  rewrite grad_unfold. cbn [grad_body negb bind].
  rewrite grad_objective_spec. split.
  - destruct (mapM _ _) as [terms|] eqn:M; simpl; [|discriminate].
    intros [= S]. apply sum_objectives_None in S. subst terms.
    apply mapM_length in M. symmetry in M. apply length_zero_iff_nil in M.
    apply filter_nil_Forall in M.
    apply (Forall_enumerate_from
             (fun E => existsb (String.eqb variable) (extract_variables_E E) = false)
             _ 0%nat) in M.
    eapply Forall_impl; [exact M|]. intros E HE I.
    apply existsb_eqb_In in I. congruence.
  - intros F.
    assert (Q : qualifying variable (expectationvalues obj) = []).
    { unfold qualifying, enumerate. generalize 0%nat.
      induction F as [|E es HE F IH]; intros i; simpl; [reflexivity|].
      destruct (existsb _ _) eqn:X; [|apply IH].
      apply existsb_eqb_In in X. contradiction. }
    rewrite Q. reflexivity.
Qed.

(** X7. Called with a collection of names, [grad] returns the list of the
    gradients for the names, in order and one per name; an exception for
    one of the names is the outcome of the call; the empty collection gives
    the empty list for every object, of a supported type or not. *)
Theorem grad_collection
  {FL : PyFloat} {TQ : Collaborators} (obj : grad_input) (vs : list string)
  (no_compile : bool) :
  grad obj (Names vs) no_compile =
    (let* l := mapM (fun v => grad obj (Name v) no_compile) vs in OK (VList l))
  /\ (vs = [] -> grad obj (Names vs) no_compile = OK (VList []))
  /\ (forall r, grad obj (Names vs) no_compile = OK r ->
        exists l, r = VList l /\ length l = length vs)
  /\ (forall e, grad obj (Names vs) no_compile = Raise e ->
        exists v, In v vs /\ grad obj (Name v) no_compile = Raise e).
Proof.
  assert (G : grad obj (Names vs) no_compile =
              let* l := mapM (fun v => grad obj (Name v) no_compile) vs in
              OK (VList l)).
  { rewrite grad_unfold. cbn [grad_body bind].
    rewrite (mapM_ext _ (fun v => grad obj (Name v) no_compile)); [reflexivity|].
    intros v _. destruct no_compile; [reflexivity|]. apply grad_compiled. }
  split; [exact G|]. split; [|split].
  - intros ->. rewrite G. reflexivity.
  - intros r Hr. rewrite G in Hr.
    destruct (mapM _ vs) as [l'|] eqn:M; simpl in Hr; [|discriminate].
    injection Hr as <-. exists l'. split; [reflexivity|].
    eapply mapM_length; eauto.
  - intros e He. rewrite G in He.
    destruct (mapM _ vs) as [l'|e'] eqn:M; simpl in He; [discriminate|].
    injection He as ->. apply mapM_Raise in M. exact M.
Qed.

(** X8. The calls of [grad] nest three deep at most (a collection of
    names, an Objective, an expectation value): with room for three nested
    calls the result is the same as with any more room and is never the
    exhaustion of that room; a collection of names on an Objective with a
    qualifying expectation value does need the three. *)
Theorem grad_nests_three_calls :
  (forall (FL : PyFloat) (TQ : Collaborators) (n : nat) (obj : grad_input)
          (variable : variable_arg) (no_compile : bool),
      grad_fuel (3 + n) obj variable no_compile
      = grad_fuel 3 obj variable no_compile
      /\ grad_fuel (3 + n) obj variable no_compile <> Raise RecursionError)
  /\ @grad_fuel RealFloat ExampleTequila 2 (OfObjective O_two)
       (Names ["theta"]) true = Raise RecursionError.
Proof.
  split; [|reflexivity].
  intros FL TQ n obj variable no_compile.
  rewrite grad_fuel_enough. split; [reflexivity|].
  apply grad_never_out_of_fuel.
Qed.

(** * The chain rule at its edges *)

Section ChainEdges.

Context {FL : PyFloat} {TQ : Collaborators}.

Lemma call_wrong_arity (d : option lambda) (floats : list float) :
  length floats <> 2%nat -> exists msg, call d floats = Raise (TypeError msg).
Proof.
  intros L. destruct d as [fn|]; simpl; [|eauto].
  destruct floats as [|x [|y [|z floats]]]; simpl in *; eauto.
  contradiction.
Qed.

Lemma tgrad_supported (f : pyfunc) (argnum : Z) :
  supported (op f) = true -> exists d, tgrad f argnum = OK d.
Proof.
  unfold tgrad, supported.
  destruct (argnum =? 0)%Z; [|destruct (argnum =? 1)%Z];
    destruct (op f); intros S; try discriminate; eauto.
Qed.

Lemma complex_real_all (args : list pyobj) :
  Forall (fun a => real_value a <> None) args ->
  exists floats, mapM complex_real args = OK floats
                 /\ length floats = length args.
Proof.
  induction 1 as [|a args Ha F (floats & M & L)]; simpl.
  - exists []. auto.
  - unfold complex_real at 1. destruct (real_value a) as [x|]; [|contradiction].
    rewrite M. simpl. exists (x :: floats). simpl. auto.
Qed.

(** With a number of arguments other than two, the loop raises TypeError
    at the first argument that contains the variable. *)
Lemma chain_loop_wrong_arity (rec : pyobj -> result float) (f : pyfunc)
  (args : list pyobj) (var : string) (floats : list float) :
  supported (op f) = true ->
  mapM complex_real args = OK floats -> length floats <> 2%nat ->
  forall (rest : list pyobj) (i : nat) (expan : list float),
    existsb (fun a => has_variable a var) rest = true ->
    exists msg, chain_loop rec f args var rest i expan = Raise (TypeError msg).
Proof.
  intros S M L rest. induction rest as [|a rest IH]; intros i expan X;
    [discriminate|].
  simpl in *. destruct (has_variable a var).
  - rewrite M. cbn [bind].
    destruct (tgrad_supported f (Z.of_nat i) S) as (d & ->). cbn [bind].
    destruct (call_wrong_arity d floats L) as (msg & ->). simpl. eauto.
  - apply IH. exact X.
Qed.

End ChainEdges.

(** X9. The functions the table returns take exactly two arguments: on a
    Transform of a supported operator with any other number of arguments,
    all of which have a value, the chain rule raises TypeError as soon as
    the Transform contains the variable. *)
Theorem weight_chain_wrong_arity
  {FL : PyFloat} {TQ : Collaborators} (f : pyfunc) (args : list pyobj)
  (variable : pyobj) (v : string) :
  assign_var variable = Some v ->
  supported (op f) = true ->
  length args <> 2%nat ->
  Forall (fun a => real_value a <> None) args ->
  has_variable (PTransform f args) v = true ->
  exists msg, weight_chain (PTransform f args) variable = Raise (TypeError msg).
Proof.
  intros Hv S L V Hhas.
  destruct (complex_real_all args V) as (floats & M & Lf).
  rewrite weight_chain_eq, Hv. cbn [local bind]. unfold has_var. rewrite Hhas.
  destruct (chain_loop_wrong_arity (fun a => weight_chain a (PStr v)) f args v
              floats S M ltac:(congruence) args 0%nat (np_zeros (length args)) Hhas)
    as (msg & ->).
  simpl. eauto.
Qed.

(** X10. The derivative of a quotient in its numerator is 1/y at the
    current value y of the denominator: when that value is zero and the
    numerator contains the variable, the chain rule raises
    ZeroDivisionError. *)
Theorem weight_chain_division_by_zero
  {FL : PyFloat} {TQ : Collaborators} (f : pyfunc) (a b variable : pyobj)
  (v : string) (x y : float) :
  assign_var variable = Some v ->
  op f = operator.truediv ->
  has_variable a v = true ->
  real_value a = Some x -> real_value b = Some y -> is_zero y = true ->
  weight_chain (PTransform f [a; b]) variable = Raise ZeroDivisionError.
Proof.
  intros Hv Hop Ha Hx Hy Hz.
  rewrite (weight_chain_Transform f [a; b] variable v Hv).
  cbn [has_variable existsb]. rewrite Ha. cbn [orb].
  unfold chain_rule_sum, enumerate.
  cbn [enumerate_from mapM chain_term]. rewrite Ha.
  unfold complex_real. rewrite Hx, Hy. cbn [bind].
  unfold tgrad. rewrite Hop. change (Z.of_nat 0 =? 0)%Z with true.
  cbn [bind call]. unfold py_truediv. cbn [float_of]. rewrite Hz. reflexivity.
Qed.

(** X11. Every way the chain rule raises: InvalidOperand when the node is
    neither a Variable nor a Transform; on a Variable or a Transform,
    UnboundLocalError when the target is neither a Variable nor a str, and
    otherwise only the exception of the table for an unsupported operator,
    a failure to evaluate an argument, TypeError, ZeroDivisionError or an
    exception of the power. *)
Theorem weight_chain_exceptions
  {FL : PyFloat} {TQ : Collaborators} (par variable : pyobj) (e : exn) :
  weight_chain par variable = Raise e ->
  (is_node par = false /\ e = InvalidOperand (type_str par))
  \/ (is_node par = true
      /\ type_is_Variable variable = false /\ type_is_str variable = false
      /\ e = UnboundLocalError "var")
  \/ (is_node par = true
      /\ (type_is_Variable variable = true \/ type_is_str variable = true)
      /\ (e = UnsupportedOperation
          \/ e = CollaboratorError "complex"
          \/ (exists msg, e = TypeError msg)
          \/ e = ZeroDivisionError
          \/ (exists pe, e = PowError pe))).
Proof.
  intros W.
  destruct (weight_chain_Raise par variable e W)
    as [(N & ->)|[(N & A & ->)|(N & A & T)]].
  - left. auto.
  - right. left. apply assign_var_None in A as [HV HS]. auto.
  - right. right. split; [exact N|]. split; [|exact T].
    destruct variable; simpl in *; auto; congruence.
Qed.

(** X12. On an expression built from Variables and from Transforms of
    add, sub or mul over two arguments that have a value, the chain rule
    returns a float for every target that is a Variable or a str: nothing
    is raised. *)
Theorem weight_chain_returns_on_well_formed
  {FL : PyFloat} {TQ : Collaborators} (par variable : pyobj) :
  is_node par = true -> well_formed par = true ->
  type_is_Variable variable = true \/ type_is_str variable = true ->
  exists c, weight_chain par variable = OK c.
Proof.
  intros N W T.
  assert (exists v, assign_var variable = Some v) as (v & Hv).
  { destruct variable; simpl in *; eauto; destruct T; discriminate. }
  exact (weight_chain_returns par N W variable v Hv).
Qed.

(** * The table and the dispatcher at their edges *)

(** X14. What [tgrad] does with every input: it returns a function exactly
    when the operator is in the table and the position is 0 or 1, it
    returns [None] exactly when the position is neither 0 nor 1, whatever
    the operator, and it raises, always the exception for unsupported
    operations, exactly when the operator is outside the table and the
    position is 0 or 1. *)
Theorem tgrad_outcomes {FL : PyFloat} (f : pyfunc) (argnum : Z) :
  ((exists fn, tgrad f argnum = OK (Some fn))
   <-> supported (op f) = true /\ (argnum = 0 \/ argnum = 1)%Z)
  /\ (tgrad f argnum = OK None <-> argnum <> 0%Z /\ argnum <> 1%Z)
  /\ (forall e, tgrad f argnum = Raise e <->
                e = UnsupportedOperation
                /\ supported (op f) = false /\ (argnum = 0 \/ argnum = 1)%Z).
Proof.
  unfold tgrad, supported.
  destruct (Z.eqb_spec argnum 0) as [->|N0];
    [|destruct (Z.eqb_spec argnum 1) as [->|N1]];
    (split; [|split; [|intros e]]); destruct (op f);
    (split; [intros X|intros X]);
    try discriminate;
    try (destruct X as (fn & X); discriminate);
    try (injection X as <-);
    try (destruct X as (? & ? & ?); try discriminate);
    try (destruct X as (? & ?); try discriminate);
    subst; eauto 6; try lia; try tauto; try congruence.
Qed.

(** X15. Every exception of the gradient of an Objective is the exception
    of the gradient of one of its expectation values that names the
    variable among its free variables: the expectation values that do not
    are never differentiated and raise nothing. *)
Theorem grad_objective_exceptions
  {FL : PyFloat} {TQ : Collaborators} (obj : Objective) (variable : string)
  (e : exn) :
  grad (OfObjective obj) (Name variable) true = Raise e ->
  exists (i : nat) (E : ExpectationValue),
    expectationvalues obj !! i = Some E
    /\ In variable (extract_variables_E E)
    /\ grad (OfExpectationValue E) (Name variable) false = Raise e.
Proof.
  rewrite grad_unfold. cbn [grad_body negb bind].
  rewrite grad_objective_spec.
  destruct (mapM _ _) as [terms|e'] eqn:M; simpl; [discriminate|].
  intros [= ->]. apply mapM_Raise in M as ([i E] & I & T).
  unfold qualifying in I. apply filter_In in I as [I X]. simpl in X.
  apply In_enumerate in I. apply existsb_eqb_In in X.
  exists i, E. repeat (split; [assumption|]).
  unfold objective_term in T.
  destruct (grad (OfExpectationValue E) (Name variable) false); simpl in T;
    [discriminate|congruence].
Qed.

(** In the arithmetic of the examples, a negative base to the exponent
    -1/2 is a complex number. *)
Lemma R_pow_negative_half :
  R_pow (2 - 3) (1 / 2 - 1) = PowComplex (R_cpow (2 - 3) (1 / 2 - 1)).
Proof.
  unfold R_pow.
  destruct (Rlt_dec 0 (2 - 3)) as [L|_]; [lra|].
  destruct (Req_dec_T (2 - 3) 0) as [L|_]; [lra|].
  destruct (Req_dec_T (IZR (Int_part (1 / 2 - 1))) (1 / 2 - 1)) as [L|_];
    [|reflexivity].
  exfalso.
  assert (D : IZR (2 * Int_part (1 / 2 - 1)) = IZR (- 1)).
  { rewrite mult_IZR, L. lra. }
  apply eq_IZR in D. lia.
Qed.

(** X16. A power that is a complex number.  When the base [a] of
    [a ** b] contains the target and [x ** (y - 1)] is a complex number at
    the values x, y of the two arguments, nothing is raised where the
    power is computed: the derivative of the base is computed next, and
    what it raises is raised; when it returns, the product is complex and
    its store into the float array raises TypeError. *)
Theorem weight_chain_complex_power
  {FL : PyFloat} {TQ : Collaborators} (f : pyfunc) (a b : pyobj)
  (x y : float) (z : complex) (v : string) :
  op f = operator.pow ->
  real_value a = Some x -> real_value b = Some y ->
  has_variable a v = true ->
  float_pow x (fsub y (of_int 1)) = PowComplex z ->
  (forall e, weight_chain a (PStr v) = Raise e ->
             weight_chain (PTransform f [a; b]) (PStr v) = Raise e)
  /\ (forall w, weight_chain a (PStr v) = OK w ->
                weight_chain (PTransform f [a; b]) (PStr v)
                = Raise (TypeError "can't convert complex to float")).
Proof.
  intros Hop Hx Hy Ha Hz.
  assert (W : forall r, weight_chain a (PStr v) = r ->
                weight_chain (PTransform f [a; b]) (PStr v) =
                let* w := r in
                Raise (TypeError "can't convert complex to float")).
  { intros r <-.
    rewrite (weight_chain_Transform f [a; b] (PStr v) v eq_refl).
    cbn [has_variable existsb]. rewrite Ha. cbn [orb].
    unfold chain_rule_sum, enumerate. cbn [enumerate_from mapM chain_term].
    rewrite Ha. unfold complex_real. rewrite Hx, Hy. cbn [bind].
    unfold tgrad at 1. rewrite Hop.
    change (Z.of_nat 0) with 0%Z. cbn [Z.eqb bind call float_of].
    unfold py_pow at 1. rewrite Hz. cbn [bind mul_float_num mul_num_float store].
    destruct (weight_chain a (PStr v)); reflexivity. }
  split.
  - intros e R. rewrite (W _ R). reflexivity.
  - intros w R. rewrite (W _ R). reflexivity.
Qed.

(** * The further properties at concrete inputs *)

(** X2 at H Rx(theta) with Rx frozen. *)
Lemma grad_expectationvalue_None_iff_witness :
  @grad_expectationvalue RealFloat ExampleTequila E_frozen "phi" = OK VNone.
Proof.
  apply (proj2 (@grad_expectationvalue_None_iff RealFloat ExampleTequila
                  E_frozen "phi")).
  constructor; [reflexivity|constructor; [reflexivity|constructor]].
Defined.

(** X3 at Rx(theta) Ry(phi): four circuits for two gates. *)
Lemma grad_expectationvalue_two_circuits_per_gate_witness :
  exists r, @grad_expectationvalue RealFloat ExampleTequila
              E_two_rotations "phi" = OK r
            /\ length (circuits_of_value r) = 4%nat.
Proof.
  eexists. split; [reflexivity|].
  exact (@grad_expectationvalue_two_circuits_per_gate RealFloat ExampleTequila
           E_two_rotations "phi" _ eq_refl).
Defined.


(** X5 at an Objective over H Rx(theta) with Rx frozen. *)
Lemma grad_objective_multiplies_by_None_witness :
  @grad RealFloat ExampleTequila
    (OfObjective {| expectationvalues := [E_frozen];
                    transformation_of := callable "f" |})
    (Name "theta") true
  = OK (VObjective
          (Mul (Leaf {| expectationvalues := [E_frozen];
                        transformation_of := jax_jit_grad (callable "f") 0 |})
               VNone)).
Proof.
  apply (@grad_objective_multiplies_by_None RealFloat ExampleTequila
           {| expectationvalues := [E_frozen];
              transformation_of := callable "f" |} E_frozen "theta" eq_refl).
  - left. reflexivity.
  - constructor; [left; reflexivity|constructor; [right; reflexivity|constructor]].
Defined.

(** X6 at an Objective in theta and phi, for psi. *)
Lemma grad_objective_None_iff_witness :
  @grad RealFloat ExampleTequila (OfObjective O_two) (Name "psi") true
  = OK VNone.
Proof.
  apply (proj2 (@grad_objective_None_iff RealFloat ExampleTequila O_two "psi")).
  constructor; [|constructor; [|constructor]];
    (intros [X|X]; [discriminate X|exact X]).
Defined.

(** X7 at an int and the empty collection. *)
Lemma grad_collection_witness :
  @grad RealFloat ExampleTequila (OfOther an_int) (Names []) true
  = OK (VList []).
Proof.
  exact (proj1 (proj2 (@grad_collection RealFloat ExampleTequila
                         (OfOther an_int) [] true)) eq_refl).
Defined.

(** X9 at a Transform of mul with theta as its only argument. *)
Lemma weight_chain_wrong_arity_witness :
  exists msg,
    @weight_chain RealFloat ExampleTequila (PTransform Mul_ [theta]) (PStr "theta")
    = Raise (TypeError msg).
Proof.
  apply (@weight_chain_wrong_arity RealFloat ExampleTequila Mul_ [theta]
           (PStr "theta") "theta"); try reflexivity.
  - discriminate.
  - constructor; [discriminate|constructor].
Defined.

(** X10 at theta / 0. *)
Lemma weight_chain_division_by_zero_witness :
  @weight_chain RealFloat ExampleTequila
    (PTransform Div_ [theta; PNumber (NInt 0)]) (PStr "theta")
  = Raise ZeroDivisionError.
Proof.
  apply (@weight_chain_division_by_zero RealFloat ExampleTequila Div_ theta
           (PNumber (NInt 0)) (PStr "theta") "theta" 2%R 0%R);
    try reflexivity.
  simpl. unfold R_is_zero. destruct (Req_dec_T 0 0); [reflexivity|contradiction].
Defined.

(** X11 at a Transform of an operator outside the table. *)
Lemma weight_chain_exceptions_witness :
  (is_node (PTransform Mod_ [theta; phi]) = false
   /\ UnsupportedOperation
      = InvalidOperand (type_str (PTransform Mod_ [theta; phi])))
  \/ (is_node (PTransform Mod_ [theta; phi]) = true
      /\ type_is_Variable (@PStr RealFloat "theta") = false
      /\ type_is_str (@PStr RealFloat "theta") = false
      /\ UnsupportedOperation = UnboundLocalError "var")
  \/ (is_node (PTransform Mod_ [theta; phi]) = true
      /\ (type_is_Variable (@PStr RealFloat "theta") = true
          \/ type_is_str (@PStr RealFloat "theta") = true)
      /\ (UnsupportedOperation = UnsupportedOperation
          \/ UnsupportedOperation = CollaboratorError "complex"
          \/ (exists msg, UnsupportedOperation = TypeError msg)
          \/ UnsupportedOperation = ZeroDivisionError
          \/ (exists pe, UnsupportedOperation = PowError pe))).
Proof.
  exact (@weight_chain_exceptions RealFloat ExampleTequila
           (PTransform Mod_ [theta; phi]) (PStr "theta") UnsupportedOperation
           eq_refl).
Defined.

(** X12 at 2 * theta. *)
Lemma weight_chain_returns_on_well_formed_witness :
  exists c, @weight_chain RealFloat ExampleTequila
              (PTransform Mul_ [PNumber (NInt 2); theta]) (PVariable "theta")
            = OK c.
Proof.
  apply (@weight_chain_returns_on_well_formed RealFloat ExampleTequila);
    [reflexivity|reflexivity|left; reflexivity].
Defined.

(** X14 at add and position 0. *)
Lemma tgrad_outcomes_witness :
  exists fn, @tgrad RealFloat Add_ 0 = OK (Some fn).
Proof.
  apply (proj1 (@tgrad_outcomes RealFloat Add_ 0%Z)).
  split; [reflexivity|left; reflexivity].
Defined.

(** X15 at an Objective whose first expectation value has a power gate. *)
Lemma grad_objective_exceptions_witness :
  exists (i : nat) (E : @ExpectationValue RealFloat),
    ([E_power; E_frozen] : list (@ExpectationValue RealFloat)) !! i = Some E
    /\ In "theta" (@extract_variables_E RealFloat ExampleTequila E)
    /\ @grad RealFloat ExampleTequila (OfExpectationValue E) (Name "theta") false
       = Raise NotImplemented.
Proof.
  exact (@grad_objective_exceptions RealFloat ExampleTequila
           {| expectationvalues := [E_power; E_frozen];
              transformation_of := callable "f" |}
           "theta" NotImplemented eq_refl).
Defined.

(** X16 at (theta - phi) ** 0.5 with theta = 2.0 and phi = 3.0: the base
    is negative, its derivative in theta is computed, and the store
    raises. *)
Lemma weight_chain_complex_power_witness :
  @weight_chain RealFloat ExampleTequila
    (PTransform Pow_ [PTransform Sub_ [theta; phi]; PNumber (@NFloat RealFloat (1 / 2)%R)])
    (PStr "theta")
  = Raise (TypeError "can't convert complex to float").
Proof.
  apply (proj2 (@weight_chain_complex_power RealFloat ExampleTequila Pow_
                  (PTransform Sub_ [theta; phi]) (PNumber (@NFloat RealFloat (1 / 2)%R))
                  (2 - 3)%R (1 / 2)%R (R_cpow (2 - 3) (1 / 2 - 1)) "theta"
                  eq_refl eq_refl eq_refl eq_refl R_pow_negative_half)
           (1 * 1 + (0 + 0))%R).
  reflexivity.
Defined.
